(** * HarmonicIntelligence: the memory feed, its store and its two clients

    A shallow embedding of
    - [server.js]: the in-memory store behind [/api/harmonic-memory];
    - [src/HarmonicTriangle.jsx]: the client that talks to the store with
      [fetch] (module [FetchClient]);
    - the later revision of the same component, which talks to the store
      through a query client and listens to a realtime channel (module
      [RealtimeClient]).

    React state is a record, every handler is a computation in a small
    state-and-exception monad, and what the environment does (the clock, the
    answers of the store, the notifications of the channel, the user) comes in
    as events. *)

From Stdlib Require Import ZArith List Lia Bool String Ascii.
From Stdlib Require Import Sorting.Sorted DecimalString.
Import ListNotations.
Open Scope Z_scope.

(** ** JavaScript strings and arrays *)

Module Js.

(** A string is a sequence of UTF-16 code units; [length] counts them. *)
Definition str := list N.

(** An ASCII literal of the source. *)
Definition lit (s : string) : str := map N_of_ascii (list_ascii_of_string s).

Definition length (s : str) : Z := Z.of_nat (List.length s).
(** [a.length] of an array. *)
Definition length_list {A} (a : list A) : Z := Z.of_nat (List.length a).

Fixpoint eqb (a b : str) : bool :=
  match a, b with
  | [], [] => true
  | c :: a', d :: b' => N.eqb c d && eqb a' b'
  | _, _ => false
  end.

(** A string is falsy exactly when it is empty. *)
Definition truthy (s : str) : bool :=
  match s with [] => false | _ :: _ => true end.

(** [WhiteSpace] and [LineTerminator] of ECMAScript, which is what
    [String.prototype.trim] strips. *)
Definition isWhiteSpace (c : N) : bool :=
  ((9 <=? c) && (c <=? 13) || (c =? 32) || (c =? 160) || (c =? 5760)
   || (8192 <=? c) && (c <=? 8202) || (c =? 8232) || (c =? 8233)
   || (c =? 8239) || (c =? 8287) || (c =? 12288) || (c =? 65279))%N.

Fixpoint trimStart (s : str) : str :=
  match s with
  | [] => []
  | c :: t => if isWhiteSpace c then trimStart t else s
  end.

Definition trimEnd (s : str) : str := rev (trimStart (rev s)).

Definition trim (s : str) : str := trimEnd (trimStart s).

(** [String(n)] for an integer [n]. *)
Definition ofNumber (n : Z) : str := lit (NilZero.string_of_int (Z.to_int n)).

(** [a.slice(0, n)] and [a.slice(-n)] for [n >= 0]. *)
Definition slice_to {A} (n : nat) (a : list A) : list A := firstn n a.
Definition slice_last {A} (n : nat) (a : list A) : list A :=
  skipn (List.length a - n) a.

(** [e || d] on an environment variable: [undefined] and the empty string
    are falsy. *)
Definition or_else (e : option str) (d : str) : str :=
  match e with
  | Some (c :: s) => c :: s
  | _ => d
  end.

End Js.

Arguments Js.lit : simpl never.
Arguments Js.ofNumber : simpl never.

Declare Scope js_scope.
Delimit Scope js_scope with js.
Notation "a +++ b" := (@app N a b) (at level 60, right associativity) : js_scope.

(** ** Entries

  [timestamp] holds the instant (milliseconds since the epoch) whose
  [toISOString()] rendering the source stores: that rendering is
  fixed-width, so comparing renderings is comparing instants.  [user_id]
  holds the clock reading [n] of the string [user_<n>].  A field the object
  does not have is [None]. *)

Record Entry := mkEntry {
  x : Js.str;
  y : Js.str;
  z : Js.str;
  score : Z;
  timestamp : Z;
  id : option Z;
  user_id : option Z
}.

Record Error := mkError { message : Js.str }.

(** ** Handlers: state and exceptions

  A handler updates the state it runs on and either returns or throws.  The
  updates made before a [throw] stay, as they do in the source. *)

Section Effects.
Context {S : Type}.

Definition M (A : Type) : Type := S -> (Error + A) * S.

Definition ret {A} (a : A) : M A := fun s => (inr a, s).

Definition bind {A B} (m : M A) (k : A -> M B) : M B :=
  fun s => match m s with
           | (inl e, s') => (inl e, s')
           | (inr a, s') => k a s'
           end.

Definition throw {A} (e : Error) : M A := fun s => (inl e, s).

Definition try_catch {A} (m : M A) (h : Error -> M A) : M A :=
  fun s => match m s with
           | (inl e, s') => h e s'
           | (inr a, s') => (inr a, s')
           end.

Definition modify (f : S -> S) : M unit := fun s => (inr tt, f s).
End Effects.

Notation "m1 ;; m2" := (bind m1 (fun _ => m2))
  (at level 61, right associativity).
Notation "'try' m 'catch' e '=>' h" := (try_catch m (fun e => h))
  (at level 62, e name, right associativity).

(** What running a handler on an event comes to: the next state, a fault no
  handler caught, or nothing at all when the event cannot happen in that
  state (an answer to a request that was never made). *)
Inductive Outcome (S : Type) :=
| Next (s : S)
| Unhandled (e : Error)
| NotEnabled.
Arguments Next {S} s.
Arguments Unhandled {S} e.
Arguments NotEnabled {S}.

Definition exec {S} (m : M unit) (s : S) : Outcome S :=
  match m s with
  | (inr _, s') => Next s'
  | (inl e, _) => Unhandled e
  end.

Section Run.
Context {S Ev : Type} (step : S -> Ev -> Outcome S).

Fixpoint run (s : S) (evs : list Ev) : Outcome S :=
  match evs with
  | [] => Next s
  | ev :: rest =>
      match step s ev with
      | Next s' => run s' rest
      | o => o
      end
  end.
End Run.

(** ** The score and the response table ([processHarmonicResponse]) *)

Module Harmonic.

Definition responses : list Js.str :=
  [ Js.lit "The field echoes clarity.";
    Js.lit "Harmonics are unstable, resolve gently.";
    Js.lit "Stabilized vector forms resonance.";
    Js.lit "This tone carries incomplete recursion.";
    Js.lit "Phase integrity confirmed; coherence upheld.";
    Js.lit "Intent and tone in disharmonic sync." ].

Definition combinedField (inputIntent fieldTone : Js.str) : Js.str :=
  (inputIntent +++ Js.lit "-" +++ fieldTone)%js.

Definition hash (inputIntent fieldTone : Js.str) : Z :=
  Js.length (combinedField inputIntent fieldTone).

(** [responses[hash % responses.length]]; the index is always in range. *)
Definition result_of (hash : Z) : Js.str :=
  nth (Z.to_nat (hash mod Z.of_nat (List.length responses))) responses [].

(** [100 - Math.abs(50 - (hash % 100))]; [%] takes the sign of the dividend,
    which is [Z.rem]. *)
Definition score_of (hash : Z) : Z := 100 - Z.abs (50 - Z.rem hash 100).

(** [!inputIntent.trim()] *)
Definition blank (inputIntent : Js.str) : bool :=
  negb (Js.truthy (Js.trim inputIntent)).

End Harmonic.

(** ** [server.js] *)

Module Server.

(** [let harmonicMemory = []] *)
Definition Memory := list Entry.
Definition harmonicMemory0 : Memory := [].

Inductive Request :=
  | GET
  | POST (now_id now_ts : Z) (body : Entry)
      (** the two clock readings of the handler: [Date.now()] and [new Date()] *)
  | DELETE.

Inductive Reply :=
  | Entries (status : Z) (l : list Entry)
  | Created (status : Z) (e : Entry)
  | Message (status : Z) (m : string).

(** [{ ...req.body, id: Date.now(), timestamp: new Date().toISOString() }] *)
Definition newEntry (now_id now_ts : Z) (body : Entry) : Entry :=
  {| x := x body; y := y body; z := z body; score := score body;
     timestamp := now_ts; id := Some now_id; user_id := user_id body |}.

Definition get (mem : Memory) : Memory * Reply := (mem, Entries 200 mem).

Definition post (now_id now_ts : Z) (body : Entry) (mem : Memory)
  : Memory * Reply :=
  let e := newEntry now_id now_ts body in
  let mem1 := mem ++ [e] in
  let mem2 := if (100 <? List.length mem1)%nat
              then Js.slice_last 100 mem1 else mem1 in
  (mem2, Created 201 e).

Definition delete (mem : Memory) : Memory * Reply :=
  ([], Message 200 "Harmonic memory cleared").

Definition handle (mem : Memory) (r : Request) : Memory * Reply :=
  match r with
  | GET => get mem
  | POST now_id now_ts body => post now_id now_ts body mem
  | DELETE => delete mem
  end.

(** The requests are served one at a time, in order. *)
Fixpoint serve (mem : Memory) (rs : list Request) : Memory * list Reply :=
  match rs with
  | [] => (mem, [])
  | r :: rest =>
      let (mem1, a) := handle mem r in
      let (mem2, answers) := serve mem1 rest in
      (mem2, a :: answers)
  end.

End Server.

(** ** Configuration and connection status, shared by the two clients *)

Inductive ApiStatus := checking | connected | not_configured | error.

Definition ApiStatus_eqb (a b : ApiStatus) : bool :=
  match a, b with
  | checking, checking | connected, connected
  | not_configured, not_configured | error, error => true
  | _, _ => false
  end.

Module Config.

(** [process.env]: a variable is absent ([None]) or holds a string. *)
Record Env := mkEnv {
  REACT_APP_SUPABASE_URL : option Js.str;
  REACT_APP_SUPABASE_ANON_KEY : option Js.str
}.

Definition placeholder_url : Js.str := Js.lit "https://your-project.supabase.co".
Definition placeholder_key : Js.str := Js.lit "your-anon-key".

Definition SUPABASE_URL (env : Env) : Js.str :=
  Js.or_else (REACT_APP_SUPABASE_URL env) placeholder_url.
Definition SUPABASE_ANON_KEY (env : Env) : Js.str :=
  Js.or_else (REACT_APP_SUPABASE_ANON_KEY env) placeholder_key.

(** The test both clients make first thing in their mount effect. *)
Definition not_configured (env : Env) : bool :=
  Js.eqb (SUPABASE_URL env) placeholder_url
  || Js.eqb (SUPABASE_ANON_KEY env) placeholder_key.

End Config.

(** A mutation of the displayed view: a new seed, or one entry arriving. *)
Inductive Mutation := Seed (l : list Entry) | Arrive (e : Entry).

(** Everything that has entered a view, latest first, since its last seed,
    followed by that seed. *)
Definition record_mutation (m : option Mutation) (log : list Entry)
  : list Entry :=
  match m with
  | Some (Seed l) => l
  | Some (Arrive e) => e :: log
  | None => log
  end.

Section History.
Context {S Ev : Type}
      (step : S -> Ev -> Outcome S)
      (mutation : S -> Ev -> option Mutation).

Fixpoint history (s : S) (log : list Entry) (evs : list Ev) : list Entry :=
  match evs with
  | [] => log
  | ev :: rest =>
      match step s ev with
      | Next s' => history s' (record_mutation (mutation s ev) log) rest
      | _ => log
      end
  end.
End History.

(** The requests in flight: dropping the one that has been answered. *)
Fixpoint remove_nth {A} (i : nat) (l : list A) : list A :=
  match i, l with
  | _, [] => []
  | O, _ :: t => t
  | S j, a :: t => a :: remove_nth j t
  end.

(** ** [src/HarmonicTriangle.jsx]: the client over [fetch] *)

Module FetchClient.

Record UI := mkUI {
    inputIntent : Js.str;
    fieldTone : Js.str;
    outputResponse : Js.str;
    memoryDisplay : list Entry;
    coherenceScore : Z;
    apiStatus : ApiStatus
  }.

(** The [useState] initial values. *)
Definition ui0 : UI :=
  {| inputIntent := []; fieldTone := Js.lit "Neutral"; outputResponse := [];
     memoryDisplay := []; coherenceScore := 0; apiStatus := checking |}.

Inductive Call :=
  | CallGet (url : Js.str)
  | CallPost (url : Js.str) (body : Entry).

(** The component together with its requests in flight and the log of the
    network calls it has made, latest first. *)
Record Sys := mkSys {
  ui : UI;
  fetching : bool;
  posts : list Entry;
  calls : list Call
}.

Definition init : Sys :=
  {| ui := ui0; fetching := false; posts := []; calls := [] |}.

Definition MEMORY_ENDPOINT (env : Config.Env) : Js.str :=
  (Config.SUPABASE_URL env +++ Js.lit "/rest/v1/harmonic_memory")%js.

Definition on_ui (f : UI -> UI) : M unit :=
  modify (fun s : Sys => {| ui := f (ui s); fetching := fetching s;
                            posts := posts s; calls := calls s |}).

Definition setInputIntent (v : Js.str) : M unit :=
  on_ui (fun u => {| inputIntent := v; fieldTone := fieldTone u;
                     outputResponse := outputResponse u;
                     memoryDisplay := memoryDisplay u;
                     coherenceScore := coherenceScore u;
                     apiStatus := apiStatus u |}).
Definition setFieldTone (v : Js.str) : M unit :=
  on_ui (fun u => {| inputIntent := inputIntent u; fieldTone := v;
                     outputResponse := outputResponse u;
                     memoryDisplay := memoryDisplay u;
                     coherenceScore := coherenceScore u;
                     apiStatus := apiStatus u |}).
Definition setOutputResponse (v : Js.str) : M unit :=
  on_ui (fun u => {| inputIntent := inputIntent u; fieldTone := fieldTone u;
                     outputResponse := v;
                     memoryDisplay := memoryDisplay u;
                     coherenceScore := coherenceScore u;
                     apiStatus := apiStatus u |}).
(** [setMemoryDisplay] is always given an updater in the source, or a value,
    which is a constant updater. *)
Definition setMemoryDisplay (f : list Entry -> list Entry) : M unit :=
  on_ui (fun u => {| inputIntent := inputIntent u; fieldTone := fieldTone u;
                     outputResponse := outputResponse u;
                     memoryDisplay := f (memoryDisplay u);
                     coherenceScore := coherenceScore u;
                     apiStatus := apiStatus u |}).
Definition setCoherenceScore (v : Z) : M unit :=
  on_ui (fun u => {| inputIntent := inputIntent u; fieldTone := fieldTone u;
                     outputResponse := outputResponse u;
                     memoryDisplay := memoryDisplay u;
                     coherenceScore := v;
                     apiStatus := apiStatus u |}).
Definition setApiStatus (v : ApiStatus) : M unit :=
  on_ui (fun u => {| inputIntent := inputIntent u; fieldTone := fieldTone u;
                     outputResponse := outputResponse u;
                     memoryDisplay := memoryDisplay u;
                     coherenceScore := coherenceScore u;
                     apiStatus := v |}).

(** [fetch(MEMORY_ENDPOINT, { headers })] up to the point where the promise
    is handed back. *)
Definition fetch_get (env : Config.Env) : M unit :=
  modify (fun s : Sys => {| ui := ui s; fetching := true; posts := posts s;
                            calls := CallGet (MEMORY_ENDPOINT env) :: calls s |}).

(** [fetch(MEMORY_ENDPOINT, { method: "POST", body })], likewise. *)
Definition fetch_post (env : Config.Env) (body : Entry) : M unit :=
  modify (fun s : Sys => {| ui := ui s; fetching := fetching s;
                            posts := posts s ++ [body];
                            calls := CallPost (MEMORY_ENDPOINT env) body :: calls s |}).

Definition settle_get : M unit :=
  modify (fun s : Sys => {| ui := ui s; fetching := false; posts := posts s;
                            calls := calls s |}).
Definition settle_post (i : nat) : M unit :=
  modify (fun s : Sys => {| ui := ui s; fetching := fetching s;
                            posts := remove_nth i (posts s);
                            calls := calls s |}).

(** The body of [useEffect(() => { ... }, [])]. *)
Definition useEffect_mount (env : Config.Env) : M unit :=
  if Config.not_configured env
  then setApiStatus not_configured
  else fetch_get env.

(** What [res.json()] may give. *)
Inductive Json := JArray (l : list Entry) | JOther.
Inductive Body := Malformed (e : Error) | Parsed (d : Json).
(** How the promise of [fetch] settles. *)
Inductive FetchResult :=
| Rejected (e : Error)
| Responded (ok : bool) (body : Body).

(** [.then(res => ...).then(data => ...).catch(error => ...)] of the mount
    effect. *)
Definition on_fetch_settled (r : FetchResult) : M unit :=
  try
    bind
      (match r with
       | Rejected e => throw e
       | Responded ok body =>
           if ok then
             setApiStatus connected ;;
             match body with
             | Malformed e => throw e
             | Parsed d => ret d
             end
           else throw (mkError (Js.lit "API not available"))
       end)
      (fun data =>
         match data with
         | JArray l => setMemoryDisplay (fun _ => Js.slice_to 5 (rev l))
         | JOther => ret tt
         end)
  catch _e => setApiStatus error.

(** [processHarmonicResponse], run on the values [snap] of the render the
    click happened in. *)
Definition memoryEntry_of (snap : UI) (now : Z) : Entry :=
  let hash := Harmonic.hash (inputIntent snap) (fieldTone snap) in
  {| x := inputIntent snap; y := fieldTone snap;
     z := Harmonic.result_of hash; score := Harmonic.score_of hash;
     timestamp := now; id := None; user_id := None |}.

Definition processHarmonicResponse (env : Config.Env) (snap : UI) (now : Z)
  : M unit :=
  if Harmonic.blank (inputIntent snap) then ret tt
  else
    let hash := Harmonic.hash (inputIntent snap) (fieldTone snap) in
    let result := Harmonic.result_of hash in
    setOutputResponse result ;;
    let score := Harmonic.score_of hash in
    setCoherenceScore score ;;
    let memoryEntry := memoryEntry_of snap now in
    if ApiStatus_eqb (apiStatus snap) connected
    then fetch_post env memoryEntry
    else setMemoryDisplay (fun prev => Js.slice_to 5 (memoryEntry :: prev)).

(** The [.then] and the [.catch] of the POST do the same thing. *)
Definition on_post_settled (memoryEntry : Entry) (resolved : bool) : M unit :=
  if resolved
  then setMemoryDisplay (fun prev => Js.slice_to 5 (memoryEntry :: prev))
  else setMemoryDisplay (fun prev => Js.slice_to 5 (memoryEntry :: prev)).

Inductive Event :=
  | TypeIntent (v : Js.str)
  | SelectTone (v : Js.str)
  | Click (now : Z)
  | FetchSettled (r : FetchResult)
  | PostSettled (i : nat) (resolved : bool).

Definition step (env : Config.Env) (s : Sys) (ev : Event) : Outcome Sys :=
  match ev with
  | TypeIntent v => exec (setInputIntent v) s
  | SelectTone v => exec (setFieldTone v) s
  | Click now => exec (processHarmonicResponse env (ui s) now) s
  | FetchSettled r =>
      if fetching s then exec (settle_get ;; on_fetch_settled r) s
      else NotEnabled
  | PostSettled i resolved =>
      match nth_error (posts s) i with
      | Some memoryEntry =>
          exec (settle_post i ;; on_post_settled memoryEntry resolved) s
      | None => NotEnabled
      end
  end.

(** A session: the mount effect, then the events. *)
Definition session (env : Config.Env) (evs : list Event) : Outcome Sys :=
  match exec (useEffect_mount env) init with
  | Next s => run (step env) s evs
  | o => o
  end.

(** The view mutation an event carries in state [s]. *)
Definition mutation (s : Sys) (ev : Event) : option Mutation :=
  match ev with
  | FetchSettled (Responded true (Parsed (JArray l))) => Some (Seed (rev l))
  | Click now =>
      if Harmonic.blank (inputIntent (ui s)) then None
      else if ApiStatus_eqb (apiStatus (ui s)) connected then None
           else Some (Arrive (memoryEntry_of (ui s) now))
  | PostSettled i _ =>
      match nth_error (posts s) i with
      | Some e => Some (Arrive e)
      | None => None
      end
  | _ => None
  end.

(** Nothing asked of the network, nothing awaited from it. *)
Definition offline (s : Sys) : Prop :=
  calls s = [] /\ fetching s = false /\ posts s = [].

(** What has entered the view in the course of a session, latest first. *)
Definition arrivals (env : Config.Env) (evs : list Event) : list Entry :=
  match exec (useEffect_mount env) init with
  | Next s => history (step env) mutation s [] evs
  | _ => []
  end.

End FetchClient.


(** ** The table [harmonic_memory] as the realtime client queries it *)

Module Store.

(** [.order("timestamp", { ascending: false })]: a stable insertion sort,
    latest first. *)
Fixpoint insert_desc (e : Entry) (l : list Entry) : list Entry :=
  match l with
  | [] => [e]
  | h :: t => if timestamp h <? timestamp e then e :: l
              else h :: insert_desc e t
  end.

Definition order_desc (rows : list Entry) : list Entry :=
  fold_right insert_desc [] rows.

(** [.select("*").order("timestamp", { ascending: false }).limit(n)] *)
Definition select_recent (n : nat) (rows : list Entry) : list Entry :=
  firstn n (order_desc rows).

End Store.

(** ** The client over the query client and the realtime channel *)

Module RealtimeClient.

Record Toast := mkToast {
  toast_id : Z;
  toast_message : Js.str;
  toast_timestamp : Z
}.

Record UI := mkUI {
  inputIntent : Js.str;
  fieldTone : Js.str;
  outputResponse : Js.str;
  memoryDisplay : list Entry;
  coherenceScore : Z;
  apiStatus : ApiStatus;
  activeUsers : Z;
  debugInfo : Js.str;
  errorMessages : list Toast
}.

Definition ui0 : UI :=
  {| inputIntent := []; fieldTone := Js.lit "Neutral"; outputResponse := [];
     memoryDisplay := []; coherenceScore := 0; apiStatus := checking;
     activeUsers := 0; debugInfo := []; errorMessages := [] |}.

Inductive Call :=
| CallSelect
| CallInsert (row : Entry)
| CallSubscribe (channel : Js.str)
| CallTrack (user_id online_at : Z).

(** The component, what it is waiting for, and the log of the network calls it
    has made, latest first. *)
Record Sys := mkSys {
  ui : UI;
  selects : nat;
  inserts : list Entry;
  feed : bool;
  presence : bool;
  scoreTimers : list Z;
  toastTimers : nat;
  calls : list Call
}.

Definition init : Sys :=
  {| ui := ui0; selects := 0; inserts := []; feed := false; presence := false;
     scoreTimers := []; toastTimers := 0; calls := [] |}.

Definition on_ui (f : UI -> UI) : M unit :=
  modify (fun s : Sys =>
    {| ui := f (ui s); selects := selects s; inserts := inserts s;
       feed := feed s; presence := presence s; scoreTimers := scoreTimers s;
       toastTimers := toastTimers s; calls := calls s |}).

Definition setInputIntent (v : Js.str) : M unit :=
  on_ui (fun u =>
    {| inputIntent := v; fieldTone := fieldTone u;
       outputResponse := outputResponse u; memoryDisplay := memoryDisplay u;
       coherenceScore := coherenceScore u; apiStatus := apiStatus u;
       activeUsers := activeUsers u; debugInfo := debugInfo u;
       errorMessages := errorMessages u |}).
Definition setFieldTone (v : Js.str) : M unit :=
  on_ui (fun u =>
    {| inputIntent := inputIntent u; fieldTone := v;
       outputResponse := outputResponse u; memoryDisplay := memoryDisplay u;
       coherenceScore := coherenceScore u; apiStatus := apiStatus u;
       activeUsers := activeUsers u; debugInfo := debugInfo u;
       errorMessages := errorMessages u |}).
Definition setOutputResponse (v : Js.str) : M unit :=
  on_ui (fun u =>
    {| inputIntent := inputIntent u; fieldTone := fieldTone u;
       outputResponse := v; memoryDisplay := memoryDisplay u;
       coherenceScore := coherenceScore u; apiStatus := apiStatus u;
       activeUsers := activeUsers u; debugInfo := debugInfo u;
       errorMessages := errorMessages u |}).
Definition setMemoryDisplay (f : list Entry -> list Entry) : M unit :=
  on_ui (fun u =>
    {| inputIntent := inputIntent u; fieldTone := fieldTone u;
       outputResponse := outputResponse u;
       memoryDisplay := f (memoryDisplay u);
       coherenceScore := coherenceScore u; apiStatus := apiStatus u;
       activeUsers := activeUsers u; debugInfo := debugInfo u;
       errorMessages := errorMessages u |}).
Definition setCoherenceScore (v : Z) : M unit :=
  on_ui (fun u =>
    {| inputIntent := inputIntent u; fieldTone := fieldTone u;
       outputResponse := outputResponse u; memoryDisplay := memoryDisplay u;
       coherenceScore := v; apiStatus := apiStatus u;
       activeUsers := activeUsers u; debugInfo := debugInfo u;
       errorMessages := errorMessages u |}).
Definition setApiStatus (v : ApiStatus) : M unit :=
  on_ui (fun u =>
    {| inputIntent := inputIntent u; fieldTone := fieldTone u;
       outputResponse := outputResponse u; memoryDisplay := memoryDisplay u;
       coherenceScore := coherenceScore u; apiStatus := v;
       activeUsers := activeUsers u; debugInfo := debugInfo u;
       errorMessages := errorMessages u |}).
Definition setActiveUsers (f : Z -> Z) : M unit :=
  on_ui (fun u =>
    {| inputIntent := inputIntent u; fieldTone := fieldTone u;
       outputResponse := outputResponse u; memoryDisplay := memoryDisplay u;
       coherenceScore := coherenceScore u; apiStatus := apiStatus u;
       activeUsers := f (activeUsers u); debugInfo := debugInfo u;
       errorMessages := errorMessages u |}).
Definition setDebugInfo (v : Js.str) : M unit :=
  on_ui (fun u =>
    {| inputIntent := inputIntent u; fieldTone := fieldTone u;
       outputResponse := outputResponse u; memoryDisplay := memoryDisplay u;
       coherenceScore := coherenceScore u; apiStatus := apiStatus u;
       activeUsers := activeUsers u; debugInfo := v;
       errorMessages := errorMessages u |}).
Definition setErrorMessages (f : list Toast -> list Toast) : M unit :=
  on_ui (fun u =>
    {| inputIntent := inputIntent u; fieldTone := fieldTone u;
       outputResponse := outputResponse u; memoryDisplay := memoryDisplay u;
       coherenceScore := coherenceScore u; apiStatus := apiStatus u;
       activeUsers := activeUsers u; debugInfo := debugInfo u;
       errorMessages := f (errorMessages u) |}).

(** What the component starts waiting for. *)
Definition query_select : M unit :=
  modify (fun s : Sys =>
    {| ui := ui s; selects := S (selects s); inserts := inserts s;
       feed := feed s; presence := presence s; scoreTimers := scoreTimers s;
       toastTimers := toastTimers s; calls := CallSelect :: calls s |}).
Definition query_insert (row : Entry) : M unit :=
  modify (fun s : Sys =>
    {| ui := ui s; selects := selects s; inserts := inserts s ++ [row];
       feed := feed s; presence := presence s; scoreTimers := scoreTimers s;
       toastTimers := toastTimers s; calls := CallInsert row :: calls s |}).
Definition subscribe_feed : M unit :=
  modify (fun s : Sys =>
    {| ui := ui s; selects := selects s; inserts := inserts s;
       feed := true; presence := presence s; scoreTimers := scoreTimers s;
       toastTimers := toastTimers s;
       calls := CallSubscribe (Js.lit "harmonic-feed") :: calls s |}).
Definition subscribe_presence : M unit :=
  modify (fun s : Sys =>
    {| ui := ui s; selects := selects s; inserts := inserts s;
       feed := feed s; presence := true; scoreTimers := scoreTimers s;
       toastTimers := toastTimers s;
       calls := CallSubscribe (Js.lit "harmonic-presence") :: calls s |}).
Definition track (user_id online_at : Z) : M unit :=
  modify (fun s : Sys =>
    {| ui := ui s; selects := selects s; inserts := inserts s;
       feed := feed s; presence := presence s; scoreTimers := scoreTimers s;
       toastTimers := toastTimers s;
       calls := CallTrack user_id online_at :: calls s |}).
(** [setTimeout(() => setCoherenceScore(newScore), 100)] *)
Definition setTimeout_score (newScore : Z) : M unit :=
  modify (fun s : Sys =>
    {| ui := ui s; selects := selects s; inserts := inserts s;
       feed := feed s; presence := presence s;
       scoreTimers := scoreTimers s ++ [newScore];
       toastTimers := toastTimers s; calls := calls s |}).
(** [setTimeout(() => setErrorMessages(...), 10000)] *)
Definition setTimeout_toast : M unit :=
  modify (fun s : Sys =>
    {| ui := ui s; selects := selects s; inserts := inserts s;
       feed := feed s; presence := presence s; scoreTimers := scoreTimers s;
       toastTimers := S (toastTimers s); calls := calls s |}).

(** What stops being waited for once its event has come. *)
Definition settle_select : M unit :=
  modify (fun s : Sys =>
    {| ui := ui s; selects := Nat.pred (selects s); inserts := inserts s;
       feed := feed s; presence := presence s; scoreTimers := scoreTimers s;
       toastTimers := toastTimers s; calls := calls s |}).
Definition settle_insert (i : nat) : M unit :=
  modify (fun s : Sys =>
    {| ui := ui s; selects := selects s; inserts := remove_nth i (inserts s);
       feed := feed s; presence := presence s; scoreTimers := scoreTimers s;
       toastTimers := toastTimers s; calls := calls s |}).
Definition settle_score (i : nat) : M unit :=
  modify (fun s : Sys =>
    {| ui := ui s; selects := selects s; inserts := inserts s;
       feed := feed s; presence := presence s;
       scoreTimers := remove_nth i (scoreTimers s);
       toastTimers := toastTimers s; calls := calls s |}).
Definition settle_toast : M unit :=
  modify (fun s : Sys =>
    {| ui := ui s; selects := selects s; inserts := inserts s;
       feed := feed s; presence := presence s; scoreTimers := scoreTimers s;
       toastTimers := Nat.pred (toastTimers s); calls := calls s |}).

(** The pictographs of the messages, in UTF-16. *)
Definition sign_warning : Js.str := [9888; 65039]%N.
Definition sign_cross : Js.str := [10060]%N.
Definition sign_check : Js.str := [9989]%N.
Definition sign_clock : Js.str := [9200]%N.
Definition sign_plug : Js.str := [55357; 56588]%N.
Definition sign_disk : Js.str := [55357; 56510]%N.

(** In one run of a handler every reading of the clock gives the same
    instant [now]. *)
Definition addErrorMessage (now : Z) (message : Js.str) : M unit :=
  setErrorMessages (fun prev =>
    prev ++ [{| toast_id := now; toast_message := message;
                toast_timestamp := now |}]) ;;
  setTimeout_toast.

(** The callback of that timer, run at instant [now]. *)
Definition on_toast_timer (now : Z) : M unit :=
  setErrorMessages (fun prev =>
    filter (fun msg => negb (toast_id msg =? now)) prev).

(** [{ data, error }] of a query, or the exception its promise rejects
    with. *)
Inductive QueryResult (A : Type) :=
| Resolved (data : option A) (error : option Error)
| Rejected (e : Error).
Arguments Resolved {A} data error.
Arguments Rejected {A} e.

(** [fetchMemory] up to its [await]. *)
Definition fetchMemory : M unit :=
  setDebugInfo (Js.lit "Fetching memory from database...") ;;
  query_select.

(** [fetchMemory] from its [await] on; the [try] spans both halves. *)
Definition fetchMemory_resume (now : Z) (r : QueryResult (list Entry))
  : M unit :=
  try
    match r with
    | Rejected e => throw e
    | Resolved data failure =>
        match failure with
        | Some err =>
            setDebugInfo (Js.lit "Database error: " +++ message err)%js ;;
            addErrorMessage now
              (sign_cross +++ Js.lit " Database error: " +++ message err)%js ;;
            throw err
        | None => ret tt
        end ;;
        match data with
        | Some data =>
            setMemoryDisplay (fun _ => data) ;;
            setApiStatus connected ;;
            setDebugInfo (Js.lit "Loaded " +++ Js.ofNumber (Js.length_list data)
                          +++ Js.lit " entries from database")%js
        | None => ret tt
        end
    end
  catch err =>
    setApiStatus error ;;
    setDebugInfo (Js.lit "Connection failed: " +++ message err)%js ;;
    addErrorMessage now
      (sign_cross +++ Js.lit " Connection failed: " +++ message err)%js.

(** The callback of the [INSERT] notifications; [newEntry] is
    [payload.new]. *)
Definition on_feed_insert (newEntry : Entry) : M unit :=
  setMemoryDisplay (fun prev => newEntry :: Js.slice_to 4 prev) ;;
  setDebugInfo (Js.lit "Real-time update: New entry received") ;;
  setTimeout_score (score newEntry).

(** The callback of that timer. *)
Definition on_score_timer (newScore : Z) : M unit :=
  setCoherenceScore newScore.

(** The callback of the [DELETE] notifications. *)
Definition on_feed_delete : M unit :=
  fetchMemory ;;
  setDebugInfo (Js.lit "Real-time update: Entry deleted").

Inductive ChannelStatus := SUBSCRIBED | CHANNEL_ERROR | TIMED_OUT | CLOSED.

(** The callback given to [.subscribe] of the feed channel. *)
Definition on_feed_status (now : Z) (status : ChannelStatus) : M unit :=
  match status with
  | SUBSCRIBED =>
      setDebugInfo (Js.lit "Real-time subscription active") ;;
      addErrorMessage now
        (sign_check +++ Js.lit " Real-time subscription active")%js
  | CHANNEL_ERROR =>
      setDebugInfo (Js.lit "Real-time subscription failed - using polling") ;;
      addErrorMessage now
        (sign_warning
         +++ Js.lit " Real-time subscription failed - using polling")%js
  | TIMED_OUT =>
      setDebugInfo (Js.lit "Real-time subscription timed out") ;;
      addErrorMessage now
        (sign_clock +++ Js.lit " Real-time subscription timed out")%js
  | CLOSED =>
      setDebugInfo (Js.lit "Real-time subscription closed") ;;
      addErrorMessage now
        (sign_plug +++ Js.lit " Real-time subscription closed")%js
  end.

Definition setupRealtimeSubscription (now : Z) : M unit :=
  try
    setDebugInfo (Js.lit "Setting up real-time subscription...") ;;
    subscribe_feed
  catch err =>
    setDebugInfo (Js.lit "Real-time setup failed: " +++ message err)%js ;;
    addErrorMessage now
      (sign_cross +++ Js.lit " Real-time setup failed: " +++ message err)%js.

(** The callbacks of the presence channel; [userCount] is
    [Object.keys(state).length]. *)
Definition on_presence_sync (userCount : nat) : M unit :=
  setActiveUsers (fun _ => Z.of_nat userCount).
Definition on_presence_join : M unit :=
  setActiveUsers (fun prev => prev + 1).
Definition on_presence_leave : M unit :=
  setActiveUsers (fun prev => Z.max 0 (prev - 1)).
Definition on_presence_status (now : Z) (status : ChannelStatus) : M unit :=
  match status with
  | SUBSCRIBED => track now now
  | _ => ret tt
  end.

Definition setupPresenceChannel (now : Z) : M unit :=
  try subscribe_presence
  catch err =>
    addErrorMessage now
      (sign_cross +++ Js.lit " Presence setup error: " +++ message err)%js.

(** The body of [useEffect(() => { ... }, [])]. *)
Definition useEffect_mount (env : Config.Env) (now : Z) : M unit :=
  if Config.not_configured env then
    setApiStatus not_configured ;;
    setDebugInfo (Js.lit "Supabase not configured - using local storage only") ;;
    addErrorMessage now
      (sign_warning
       +++ Js.lit " Supabase not configured - using local storage only")%js
  else
    fetchMemory ;;
    setupRealtimeSubscription now ;;
    setupPresenceChannel now.

(** [processHarmonicResponse], run on the values [snap] of the render the
    click happened in, up to its [await] or to its end. *)
Definition entry_of (snap : UI) (now : Z) : Entry :=
  let hash := Harmonic.hash (inputIntent snap) (fieldTone snap) in
  {| x := inputIntent snap; y := fieldTone snap;
     z := Harmonic.result_of hash; score := Harmonic.score_of hash;
     timestamp := now; id := None; user_id := Some now |}.

Definition processHarmonicResponse (snap : UI) (now : Z) : M unit :=
  if Harmonic.blank (inputIntent snap) then ret tt
  else
    let hash := Harmonic.hash (inputIntent snap) (fieldTone snap) in
    let result := Harmonic.result_of hash in
    setOutputResponse result ;;
    let score := Harmonic.score_of hash in
    setCoherenceScore score ;;
    let entry := entry_of snap now in
    if ApiStatus_eqb (apiStatus snap) connected then
      setDebugInfo (Js.lit "Saving to database...") ;;
      query_insert entry
    else
      setMemoryDisplay (fun prev => entry :: Js.slice_to 4 prev) ;;
      setDebugInfo (Js.lit "Saved to local state only") ;;
      addErrorMessage now (sign_disk +++ Js.lit " Saved to local state only")%js.

(** [processHarmonicResponse] from its [await] on. *)
Definition processHarmonicResponse_resume (now : Z) (entry : Entry)
    (r : QueryResult unit) : M unit :=
  try
    match r with
    | Rejected e => throw e
    | Resolved _ failure =>
        match failure with
        | Some err =>
            setDebugInfo (Js.lit "Save failed: " +++ message err)%js ;;
            addErrorMessage now
              (sign_cross +++ Js.lit " Save failed: " +++ message err)%js ;;
            throw err
        | None => ret tt
        end ;;
        setDebugInfo (Js.lit "Successfully saved to database") ;;
        addErrorMessage now
          (sign_check +++ Js.lit " Successfully saved to database")%js
    end
  catch err =>
    setDebugInfo (Js.lit "Save failed: " +++ message err)%js ;;
    addErrorMessage now
      (sign_cross +++ Js.lit " Save failed: " +++ message err)%js ;;
    setMemoryDisplay (fun prev => entry :: Js.slice_to 4 prev).

(** The events of a mounted component.  An answer to the select query
    carries the rows the table holds when the query runs; the query itself
    picks the five latest. *)
Inductive Event :=
| TypeIntent (v : Js.str)
| SelectTone (v : Js.str)
| Click (now : Z)
| SelectSettled (now : Z) (r : QueryResult (list Entry))
| InsertSettled (now : Z) (i : nat) (r : QueryResult unit)
| FeedInsert (newEntry : Entry)
| FeedDelete
| FeedStatus (now : Z) (status : ChannelStatus)
| ScoreTimer (i : nat)
| ToastTimer (now : Z)
| PresenceSync (userCount : nat)
| PresenceJoin
| PresenceLeave
| PresenceStatus (now : Z) (status : ChannelStatus).

Definition query_answer (r : QueryResult (list Entry))
  : QueryResult (list Entry) :=
  match r with
  | Resolved rows failure =>
      Resolved (option_map (Store.select_recent 5) rows) failure
  | Rejected e => Rejected e
  end.

Definition step (s : Sys) (ev : Event) : Outcome Sys :=
  match ev with
  | TypeIntent v => exec (setInputIntent v) s
  | SelectTone v => exec (setFieldTone v) s
  | Click now => exec (processHarmonicResponse (ui s) now) s
  | SelectSettled now r =>
      match selects s with
      | O => NotEnabled
      | S _ => exec (settle_select ;; fetchMemory_resume now (query_answer r)) s
      end
  | InsertSettled now i r =>
      match nth_error (inserts s) i with
      | Some entry =>
          exec (settle_insert i ;; processHarmonicResponse_resume now entry r) s
      | None => NotEnabled
      end
  | FeedInsert newEntry =>
      if feed s then exec (on_feed_insert newEntry) s else NotEnabled
  | FeedDelete =>
      if feed s then exec on_feed_delete s else NotEnabled
  | FeedStatus now status =>
      if feed s then exec (on_feed_status now status) s else NotEnabled
  | ScoreTimer i =>
      match nth_error (scoreTimers s) i with
      | Some newScore => exec (settle_score i ;; on_score_timer newScore) s
      | None => NotEnabled
      end
  | ToastTimer now =>
      match toastTimers s with
      | O => NotEnabled
      | S _ => exec (settle_toast ;; on_toast_timer now) s
      end
  | PresenceSync userCount =>
      if presence s then exec (on_presence_sync userCount) s else NotEnabled
  | PresenceJoin =>
      if presence s then exec on_presence_join s else NotEnabled
  | PresenceLeave =>
      if presence s then exec on_presence_leave s else NotEnabled
  | PresenceStatus now status =>
      if presence s then exec (on_presence_status now status) s
      else NotEnabled
  end.

(** A session: the mount effect at instant [now], then the events. *)
Definition session (env : Config.Env) (now : Z) (evs : list Event)
  : Outcome Sys :=
  match exec (useEffect_mount env now) init with
  | Next s => run step s evs
  | o => o
  end.

(** Whether a query came back with an error, either way. *)
Definition failed {A} (r : QueryResult A) : bool :=
  match r with
  | Resolved _ None => false
  | _ => true
  end.

(** The view mutation an event carries in state [s]. *)
Definition mutation (s : Sys) (ev : Event) : option Mutation :=
  match ev with
  | SelectSettled _ (Resolved (Some rows) None) =>
      Some (Seed (Store.select_recent 5 rows))
  | Click now =>
      if Harmonic.blank (inputIntent (ui s)) then None
      else if ApiStatus_eqb (apiStatus (ui s)) connected then None
           else Some (Arrive (entry_of (ui s) now))
  | InsertSettled _ i r =>
      match nth_error (inserts s) i with
      | Some e => if failed r then Some (Arrive e) else None
      | None => None
      end
  | FeedInsert newEntry => Some (Arrive newEntry)
  | _ => None
  end.


(** What has entered the view in the course of a session, latest first. *)
Definition arrivals (env : Config.Env) (now : Z) (evs : list Event)
  : list Entry :=
  match exec (useEffect_mount env now) init with
  | Next s => history step mutation s [] evs
  | _ => []
  end.

(** Nothing asked of the network, nothing awaited from it. *)
Definition offline (s : Sys) : Prop :=
  calls s = [] /\ selects s = O /\ inserts s = [] /\
  feed s = false /\ presence s = false.

End RealtimeClient.

(** ** What the claims speak of *)

(** Latest first, by timestamp. *)
Definition recent_first (l : list Entry) : Prop :=
  StronglySorted (fun a b => timestamp b <= timestamp a) l.

(** Oldest first, by timestamp. *)
Definition oldest_first (l : list Entry) : Prop :=
  StronglySorted (fun a b => timestamp a <= timestamp b) l.

(** How many entries of a view carry the id [i]. *)
Definition count_id (i : Z) (l : list Entry) : nat :=
  List.length (filter (fun e => match id e with
                                 | Some j => j =? i
                                 | None => false
                                 end) l).

(** A string of white space only, the empty one included. *)
Definition whitespace_only (s : Js.str) : Prop :=
  Forall (fun c => Js.isWhiteSpace c = true) s.

(** A run of appends, each with its two clock readings and its body. *)
Definition Append : Type := Z * Z * Entry.
Definition append_request (a : Append) : Server.Request :=
  let '(now_id, now_ts, body) := a in Server.POST now_id now_ts body.
Definition appended (a : Append) : Entry :=
  let '(now_id, now_ts, body) := a in Server.newEntry now_id now_ts body.

(** The instants at which the appends of a run of requests are stamped. *)
Fixpoint post_instants (rs : list Server.Request) : list Z :=
  match rs with
  | [] => []
  | Server.POST _ now_ts _ :: rest => now_ts :: post_instants rest
  | _ :: rest => post_instants rest
  end.

(** The clock of the server never runs backwards. *)
Definition clock_monotone (rs : list Server.Request) : Prop :=
  StronglySorted Z.le (post_instants rs).

(** A variable of the environment that is absent or still holds the
    placeholder the source falls back on. *)
Definition missing (v : option Js.str) (placeholder : Js.str) : Prop :=
  v = None \/ v = Some placeholder.

Definition unconfigured (env : Config.Env) : Prop :=
  missing (Config.REACT_APP_SUPABASE_URL env) Config.placeholder_url \/
  missing (Config.REACT_APP_SUPABASE_ANON_KEY env) Config.placeholder_key.



(** Sample data for the worked examples. *)
Definition env_configured : Config.Env :=
  {| Config.REACT_APP_SUPABASE_URL := Some (Js.lit "https://field.supabase.co");
     Config.REACT_APP_SUPABASE_ANON_KEY := Some (Js.lit "eyJhbGciOi") |}.

Definition env_bare : Config.Env :=
  {| Config.REACT_APP_SUPABASE_URL := None;
     Config.REACT_APP_SUPABASE_ANON_KEY := Some (Js.lit "eyJhbGciOi") |}.

Definition hello : Entry :=
  {| x := Js.lit "Hello"; y := Js.lit "Trust";
     z := Js.lit "Intent and tone in disharmonic sync."; score := 61;
     timestamp := 1000; id := None; user_id := None |}.

Definition hello_stored : Entry :=
  {| x := Js.lit "Hello"; y := Js.lit "Trust";
     z := Js.lit "Intent and tone in disharmonic sync."; score := 61;
     timestamp := 1000; id := Some 7; user_id := None |}.

Definition unreachable : Error := {| message := Js.lit "Failed to fetch" |}.

(** The state an outcome carries, or [d] when it carries none. *)
Definition ending {S} (o : Outcome S) (d : S) : S :=
  match o with
  | Next s => s
  | _ => d
  end.

(** A connected realtime client with "Hello" typed in and a submit waiting
    for the store, and the fetch client in the same position. *)
Definition rt_typed : RealtimeClient.Sys :=
  ending (RealtimeClient.session env_configured 0
            [RealtimeClient.SelectSettled 1 (RealtimeClient.Resolved (Some []) None);
             RealtimeClient.TypeIntent (Js.lit "Hello");
             RealtimeClient.SelectTone (Js.lit "Trust")])
         RealtimeClient.init.

Definition rt_saving : RealtimeClient.Sys :=
  ending (RealtimeClient.step rt_typed (RealtimeClient.Click 2))
         RealtimeClient.init.

Definition fc_typed : FetchClient.Sys :=
  ending (FetchClient.session env_configured
            [FetchClient.FetchSettled
               (FetchClient.Responded true (FetchClient.Parsed (FetchClient.JArray [])));
             FetchClient.TypeIntent (Js.lit "Hello");
             FetchClient.SelectTone (Js.lit "Trust")])
         FetchClient.init.

Definition fc_saving : FetchClient.Sys :=
  ending (FetchClient.step env_configured fc_typed (FetchClient.Click 2))
         FetchClient.init.

(** Seven notifications on a connected client, and seven local submits on a
    fetch client whose first request was refused. *)
Definition stamped (t : Z) : Entry :=
  {| x := Js.lit "Hello"; y := Js.lit "Trust";
     z := Js.lit "Intent and tone in disharmonic sync."; score := 61;
     timestamp := t; id := Some t; user_id := None |}.

Definition rt_busy_events : list RealtimeClient.Event :=
  RealtimeClient.SelectSettled 1
    (RealtimeClient.Resolved (Some [stamped 3; stamped 9; stamped 5]) None)
  :: map (fun t => RealtimeClient.FeedInsert (stamped t)) [10; 11; 12; 13; 14; 15; 16].





(** A session without configuration. *)
Definition rt_local_events : list RealtimeClient.Event :=
  [RealtimeClient.TypeIntent (Js.lit "Hello"); RealtimeClient.Click 2;
   RealtimeClient.ToastTimer 3].
Definition fc_local_events : list FetchClient.Event :=
  [FetchClient.TypeIntent (Js.lit "Hello"); FetchClient.Click 2].

(** Clients with nothing but white space typed in. *)
Definition rt_blank : RealtimeClient.Sys :=
  ending (RealtimeClient.step rt_typed
            (RealtimeClient.TypeIntent [32; 9; 160; 10]%N))
         RealtimeClient.init.
Definition fc_blank : FetchClient.Sys :=
  ending (FetchClient.step env_configured fc_typed
            (FetchClient.TypeIntent [32; 9; 160; 10]%N))
         FetchClient.init.

Definition hundred_and_one : list Append :=
  map (fun n => (Z.of_nat n, Z.of_nat n, hello)) (seq 0 101).

(** ** Further notions, for the properties beyond the claims *)

(** The readings of [Date.now()] from which the appends of a run of requests
    get their ids. *)
Fixpoint post_ids (rs : list Server.Request) : list Z :=
  match rs with
  | [] => []
  | Server.POST now_id _ _ :: rest => now_id :: post_ids rest
  | _ :: rest => post_ids rest
  end.

(** The requests that only read, and the replies they get. *)
Definition is_read (r : Server.Request) : bool :=
  match r with
  | Server.GET => true
  | _ => false
  end.

Definition is_listing (a : Server.Reply) : bool :=
  match a with
  | Server.Entries _ _ => true
  | _ => false
  end.

Definition without_reads (rs : list Server.Request) : list Server.Request :=
  filter (fun r => negb (is_read r)) rs.

Definition without_listings (answers : list Server.Reply) : list Server.Reply :=
  filter (fun a => negb (is_listing a)) answers.

(** A variable of the environment that [||] replaces by the placeholder, or
    that holds the placeholder already. *)
Definition falls_back (v : option Js.str) (placeholder : Js.str) : Prop :=
  v = None \/ v = Some [] \/ v = Some placeholder.

(** The events by which the realtime client hears from its select query. *)
Definition is_select_answer (ev : RealtimeClient.Event) : bool :=
  match ev with
  | RealtimeClient.SelectSettled _ _ => true
  | _ => false
  end.

(** More sample data. *)
Definition full_store : Server.Memory :=
  map appended (firstn 100 hundred_and_one).

Definition three_appends : list Append :=
  [(5, 5, hello); (6, 6, hello_stored); (7, 8, hello)].

Definition env_empty_key : Config.Env :=
  {| Config.REACT_APP_SUPABASE_URL := Some (Js.lit "https://field.supabase.co");
     Config.REACT_APP_SUPABASE_ANON_KEY := Some [] |}.

(** * Proofs *)

(** ** Strings *)

Lemma trimStart_nil (s : Js.str) :
  Js.trimStart s = [] <-> whitespace_only s.
Proof.
  unfold whitespace_only. induction s as [|c t IH]; simpl.
  - split; auto.
  - destruct (Js.isWhiteSpace c) eqn:E.
    + rewrite IH. split; intro H.
      * constructor; assumption.
      * inversion H; assumption.
    + split; intro H; try discriminate.
      inversion H; congruence.
Qed.

Lemma trimStart_whitespace_only (s : Js.str) :
  whitespace_only (Js.trimStart s) -> whitespace_only s.
Proof.
  unfold whitespace_only. induction s as [|c t IH]; simpl; auto.
  destruct (Js.isWhiteSpace c) eqn:E; auto.
Qed.

Lemma trim_nil (s : Js.str) : Js.trim s = [] <-> whitespace_only s.
Proof.
  unfold Js.trim, Js.trimEnd. split; intro H.
  - apply trimStart_whitespace_only.
    apply (f_equal (@rev N)) in H. rewrite rev_involutive in H.
    simpl in H. rename H into K.
    apply trimStart_nil in K. unfold whitespace_only in *.
    apply Forall_rev in K. now rewrite rev_involutive in K.
  - apply trimStart_nil in H. rewrite H. reflexivity.
Qed.

Lemma blank_true (s : Js.str) : Harmonic.blank s = true <-> whitespace_only s.
Proof.
  unfold Harmonic.blank. rewrite <- trim_nil.
  destruct (Js.trim s); simpl; split; intro; congruence.
Qed.

Lemma blank_false (s : Js.str) :
  Harmonic.blank s = false <-> ~ whitespace_only s.
Proof.
  rewrite <- blank_true. destruct (Harmonic.blank s); split; congruence.
Qed.

(** ** The score *)

Lemma score_of_range (h : Z) : 0 <= h -> 50 <= Harmonic.score_of h <= 100.
Proof.
  intro H. unfold Harmonic.score_of.
  pose proof (Z.rem_bound_pos h 100 H ltac:(lia)). lia.
Qed.

Lemma hash_nonneg (inputIntent fieldTone : Js.str) :
  0 <= Harmonic.hash inputIntent fieldTone.
Proof. unfold Harmonic.hash, Js.length. lia. Qed.

Lemma result_of_in_table (h : Z) : In (Harmonic.result_of h) Harmonic.responses.
Proof.
  unfold Harmonic.result_of. apply nth_In.
  pose proof (Z.mod_pos_bound h (Z.of_nat (List.length Harmonic.responses))
                ltac:(simpl; lia)).
  lia.
Qed.

(** ** Lists in order *)

Section SortedLists.
Context {A : Type} (R : A -> A -> Prop).

Lemma StronglySorted_app (a b : list A) :
  StronglySorted R (a ++ b) <->
  StronglySorted R a /\ StronglySorted R b /\
  (forall u v, In u a -> In v b -> R u v).
Proof.
  induction a as [|h t IH]; simpl.
  - split.
    + intro H. repeat split; [constructor | assumption | contradiction].
    + tauto.
  - split.
    + intro H. apply StronglySorted_inv in H. destruct H as [H1 H2].
      apply IH in H1. destruct H1 as (Ht & Hb & Hc).
      rewrite Forall_app in H2. destruct H2 as [F1 F2].
      repeat split; try assumption.
      * constructor; assumption.
      * intros u v [<-|Hu] Hv.
        -- rewrite Forall_forall in F2. auto.
        -- auto.
    + intros (Hs & Hb & Hc). apply StronglySorted_inv in Hs.
      destruct Hs as [Ht F]. constructor.
      * apply IH. repeat split; auto.
      * rewrite Forall_app. split; [assumption|].
        rewrite Forall_forall. intros v Hv. apply Hc; auto.
Qed.

Lemma StronglySorted_skipn (n : nat) (l : list A) :
  StronglySorted R l -> StronglySorted R (skipn n l).
Proof.
  intro H. rewrite <- (firstn_skipn n l) in H.
  apply StronglySorted_app in H. tauto.
Qed.

Lemma StronglySorted_firstn (n : nat) (l : list A) :
  StronglySorted R l -> StronglySorted R (firstn n l).
Proof.
  intro H. rewrite <- (firstn_skipn n l) in H.
  apply StronglySorted_app in H. tauto.
Qed.

End SortedLists.

Lemma StronglySorted_rev {A} (R : A -> A -> Prop) (l : list A) :
  StronglySorted R l -> StronglySorted (fun u v => R v u) (rev l).
Proof.
  induction 1 as [|h t Ht IH F]; simpl; [constructor|].
  apply StronglySorted_app. repeat split.
  - assumption.
  - repeat constructor.
  - intros u v Hu [<-|[]]. apply in_rev in Hu.
    rewrite Forall_forall in F. auto.
Qed.

Lemma StronglySorted_map {A B} (R : B -> B -> Prop) (f : A -> B) (l : list A) :
  StronglySorted R (map f l) <-> StronglySorted (fun u v => R (f u) (f v)) l.
Proof.
  induction l as [|h t IH]; simpl.
  - split; constructor.
  - split; intro H; apply StronglySorted_inv in H; destruct H as [H1 H2];
      constructor; try (apply IH; assumption).
    + rewrite Forall_map in H2. assumption.
    + rewrite Forall_map. assumption.
Qed.

(** ** The store of [server.js] *)

Lemma slice_last_short {A} (n : nat) (a : list A) :
  (List.length a <= n)%nat -> Js.slice_last n a = a.
Proof.
  intro H. unfold Js.slice_last.
  replace (List.length a - n)%nat with O by lia. reflexivity.
Qed.

Lemma slice_last_length {A} (n : nat) (a : list A) :
  List.length (Js.slice_last n a) = Nat.min n (List.length a).
Proof. unfold Js.slice_last. rewrite length_skipn. lia. Qed.

Lemma slice_last_app {A} (n : nat) (a b : list A) :
  Js.slice_last n (Js.slice_last n a ++ b) = Js.slice_last n (a ++ b).
Proof.
  unfold Js.slice_last.
  rewrite !length_app, length_skipn, !skipn_app, length_skipn, skipn_skipn.
  f_equal; f_equal; lia.
Qed.

Lemma slice_last_drop_front {A} (n : nat) (a b : list A) :
  (n <= List.length b)%nat -> Js.slice_last n (a ++ b) = Js.slice_last n b.
Proof.
  intro H. unfold Js.slice_last. rewrite length_app, skipn_app.
  rewrite skipn_all2 by lia. simpl. f_equal. lia.
Qed.

Lemma post_memory (now_id now_ts : Z) (body : Entry) (mem : Server.Memory) :
  Server.post now_id now_ts body mem =
  (Js.slice_last 100 (mem ++ [Server.newEntry now_id now_ts body]),
   Server.Created 201 (Server.newEntry now_id now_ts body)).
Proof.
  unfold Server.post. cbv zeta.
  destruct (Nat.ltb_spec 100
              (List.length (mem ++ [Server.newEntry now_id now_ts body])));
    [reflexivity|].
  rewrite slice_last_short by lia. reflexivity.
Qed.

Lemma serve_appends (ps : list Append) (mem : Server.Memory) :
  Server.serve mem (map append_request ps) =
  (match ps with
   | [] => mem
   | _ :: _ => Js.slice_last 100 (mem ++ map appended ps)
   end,
   map (Server.Created 201) (map appended ps)).
Proof.
  revert mem. induction ps as [|[[now_id now_ts] body] ps IH]; intro mem.
  - reflexivity.
  - cbn [map append_request appended Server.serve Server.handle].
    rewrite post_memory, IH. f_equal.
    destruct ps as [|p ps]; [reflexivity|].
    rewrite slice_last_app, <- app_assoc. reflexivity.
Qed.

(** The timestamps of the store and of the appends still to come, in the
    order of the clock. *)
Lemma serve_keeps_order (rs : list Server.Request) (mem : Server.Memory) :
  StronglySorted Z.le (map timestamp mem ++ post_instants rs) ->
  oldest_first (fst (Server.serve mem rs)).
Proof.
  unfold oldest_first. revert mem.
  induction rs as [|r rs IH]; intros mem H.
  - simpl in *. rewrite app_nil_r in H.
    now apply (StronglySorted_map Z.le timestamp).
  - simpl. destruct (Server.handle mem r) as [mem1 a] eqn:E.
    specialize (IH mem1).
    destruct (Server.serve mem1 rs) as [mem2 answers]. simpl in *.
    apply IH. clear IH. destruct r; simpl in E.
    + inversion E; subst. assumption.
    + rewrite post_memory in E. inversion E; subst. clear E.
      unfold Js.slice_last.
      replace (map timestamp mem ++ now_ts :: post_instants rs)
        with (map timestamp (mem ++ [Server.newEntry now_id now_ts body])
              ++ post_instants rs) in H
        by (rewrite map_app, <- app_assoc; reflexivity).
      set (l := mem ++ [Server.newEntry now_id now_ts body]) in *.
      rewrite <- (firstn_skipn (List.length l - 100) l), map_app,
        <- app_assoc in H.
      apply StronglySorted_app in H. tauto.
    + inversion E; subst. simpl. apply StronglySorted_app in H. tauto.
Qed.

Lemma serve_bounded (rs : list Server.Request) (mem : Server.Memory) :
  (List.length mem <= 100)%nat ->
  (List.length (fst (Server.serve mem rs)) <= 100)%nat.
Proof.
  revert mem. induction rs as [|r rs IH]; intros mem H; [assumption|].
  simpl. destruct (Server.handle mem r) as [mem1 a] eqn:E.
  specialize (IH mem1).
  destruct (Server.serve mem1 rs) as [mem2 answers]. simpl in *.
  apply IH. destruct r; simpl in E.
  - inversion E; subst; assumption.
  - rewrite post_memory in E. inversion E; subst.
    rewrite slice_last_length. lia.
  - inversion E; subst. simpl. lia.
Qed.

(** ** The query of the realtime client *)

Lemma insert_desc_sorted (e : Entry) (l : list Entry) :
  recent_first l -> recent_first (Store.insert_desc e l).
Proof.
  unfold recent_first. induction 1 as [|h t Ht IH F]; simpl.
  - repeat constructor.
  - destruct (Z.ltb_spec (timestamp h) (timestamp e)).
    + constructor; [constructor; assumption|].
      constructor; [lia|].
      rewrite Forall_forall in *. intros u Hu. specialize (F u Hu). lia.
    + constructor; [assumption|].
      assert (G : forall l', Forall (fun b => timestamp b <= timestamp h) l' ->
                  Forall (fun b => timestamp b <= timestamp h)
                         (Store.insert_desc e l')).
      { induction 1 as [|u l' Hu Hl' IH']; simpl.
        - repeat constructor. lia.
        - destruct (timestamp u <? timestamp e); repeat constructor; auto; lia. }
      apply G, F.
Qed.

Lemma order_desc_sorted (rows : list Entry) :
  recent_first (Store.order_desc rows).
Proof.
  induction rows as [|e rows IH]; simpl.
  - constructor.
  - apply insert_desc_sorted, IH.
Qed.

Lemma insert_desc_In (e u : Entry) (l : list Entry) :
  In u (Store.insert_desc e l) <-> u = e \/ In u l.
Proof.
  induction l as [|h t IH]; simpl.
  - intuition.
  - destruct (timestamp h <? timestamp e); simpl; rewrite ?IH; intuition.
Qed.

Lemma order_desc_In (u : Entry) (rows : list Entry) :
  In u (Store.order_desc rows) <-> In u rows.
Proof.
  induction rows as [|e rows IH]; simpl; [tauto|].
  rewrite insert_desc_In, IH. intuition.
Qed.

Lemma select_recent_sorted (n : nat) (rows : list Entry) :
  recent_first (Store.select_recent n rows).
Proof. apply StronglySorted_firstn, order_desc_sorted. Qed.

Lemma select_recent_length (n : nat) (rows : list Entry) :
  (List.length (Store.select_recent n rows) <= n)%nat.
Proof. apply firstn_le_length. Qed.

(** ** The realtime client, one event at a time *)

Ltac rt_compute :=
  cbv [RealtimeClient.step exec bind ret throw try_catch modify
       RealtimeClient.processHarmonicResponse
       RealtimeClient.processHarmonicResponse_resume
       RealtimeClient.fetchMemory RealtimeClient.fetchMemory_resume
       RealtimeClient.query_answer option_map
       RealtimeClient.on_feed_insert RealtimeClient.on_feed_delete
       RealtimeClient.on_feed_status RealtimeClient.on_score_timer
       RealtimeClient.on_toast_timer RealtimeClient.on_presence_sync
       RealtimeClient.on_presence_join RealtimeClient.on_presence_leave
       RealtimeClient.on_presence_status
       RealtimeClient.setupRealtimeSubscription
       RealtimeClient.setupPresenceChannel RealtimeClient.useEffect_mount
       RealtimeClient.addErrorMessage
       RealtimeClient.setInputIntent RealtimeClient.setFieldTone
       RealtimeClient.setOutputResponse RealtimeClient.setMemoryDisplay
       RealtimeClient.setCoherenceScore RealtimeClient.setApiStatus
       RealtimeClient.setActiveUsers RealtimeClient.setDebugInfo
       RealtimeClient.setErrorMessages RealtimeClient.on_ui
       RealtimeClient.query_select RealtimeClient.query_insert
       RealtimeClient.subscribe_feed RealtimeClient.subscribe_presence
       RealtimeClient.track RealtimeClient.setTimeout_score
       RealtimeClient.setTimeout_toast RealtimeClient.settle_select
       RealtimeClient.settle_insert RealtimeClient.settle_score
       RealtimeClient.settle_toast
       RealtimeClient.ui RealtimeClient.selects RealtimeClient.inserts
       RealtimeClient.feed RealtimeClient.presence
       RealtimeClient.scoreTimers RealtimeClient.toastTimers
       RealtimeClient.calls
       RealtimeClient.memoryDisplay RealtimeClient.apiStatus
       RealtimeClient.inputIntent RealtimeClient.fieldTone
       RealtimeClient.outputResponse RealtimeClient.coherenceScore
       RealtimeClient.activeUsers RealtimeClient.debugInfo
       RealtimeClient.errorMessages
       RealtimeClient.mutation RealtimeClient.failed
       Js.slice_to record_mutation].

Ltac rt_cases s ev :=
  destruct s as [[intent tone out view coh status users dbg toasts]
                   sel ins fd pr timers toastn log];
  destruct ev as [v|v|now|now r|now i r|newEntry| |now st|i|now|n| | |now st];
  rt_compute.

Ltac rt_split :=
  repeat match goal with
         | |- context [match ?c with _ => _ end] =>
             lazymatch c with
             | context [match _ with _ => _ end] => fail
             | _ => destruct c eqn:?
             end
         end.


Lemma rt_step_view (s s' : RealtimeClient.Sys) (ev : RealtimeClient.Event) :
  RealtimeClient.step s ev = Next s' ->
  RealtimeClient.memoryDisplay (RealtimeClient.ui s') =
  match RealtimeClient.mutation s ev with
  | None => RealtimeClient.memoryDisplay (RealtimeClient.ui s)
  | Some (Seed l) => l
  | Some (Arrive e) =>
      e :: firstn 4 (RealtimeClient.memoryDisplay (RealtimeClient.ui s))
  end.
Proof.
  rt_cases s ev; rt_split; intro H; inversion H; subst; reflexivity.
Qed.

Lemma rt_step_status (s s' : RealtimeClient.Sys) (ev : RealtimeClient.Event) :
  RealtimeClient.step s ev = Next s' ->
  RealtimeClient.apiStatus (RealtimeClient.ui s') =
  match ev with
  | RealtimeClient.SelectSettled _ (RealtimeClient.Resolved (Some _) None) =>
      connected
  | RealtimeClient.SelectSettled _ (RealtimeClient.Resolved None None) =>
      RealtimeClient.apiStatus (RealtimeClient.ui s)
  | RealtimeClient.SelectSettled _ _ => error
  | _ => RealtimeClient.apiStatus (RealtimeClient.ui s)
  end.
Proof.
  rt_cases s ev; rt_split; intro H; inversion H; subst; reflexivity.
Qed.

Lemma rt_step_selects (s s' : RealtimeClient.Sys) (ev : RealtimeClient.Event) :
  RealtimeClient.step s ev = Next s' ->
  RealtimeClient.selects s' =
  match ev with
  | RealtimeClient.SelectSettled _ _ => Nat.pred (RealtimeClient.selects s)
  | RealtimeClient.FeedDelete => S (RealtimeClient.selects s)
  | _ => RealtimeClient.selects s
  end.
Proof.
  rt_cases s ev; rt_split; intro H; inversion H; subst; reflexivity.
Qed.

Lemma rt_step_offline (s s' : RealtimeClient.Sys) (ev : RealtimeClient.Event) :
  RealtimeClient.step s ev = Next s' ->
  RealtimeClient.offline s /\
  RealtimeClient.apiStatus (RealtimeClient.ui s) = not_configured ->
  RealtimeClient.offline s' /\
  RealtimeClient.apiStatus (RealtimeClient.ui s') = not_configured.
Proof.
  unfold RealtimeClient.offline.
  rt_cases s ev; rt_split; intros H (I & J); simpl in *;
    destruct I as (? & ? & ? & ? & ?); subst; try discriminate;
    inversion H; subst; simpl; repeat split; try reflexivity;
    try discriminate.
  all: match goal with
       | K : nth_error [] ?i = Some _ |- _ => destruct i; discriminate K
       end.
Qed.

Lemma rt_step_io (s s' : RealtimeClient.Sys) (ev : RealtimeClient.Event) :
  RealtimeClient.step s ev = Next s' ->
  RealtimeClient.feed s' = RealtimeClient.feed s /\
  RealtimeClient.presence s' = RealtimeClient.presence s /\
  RealtimeClient.inserts s' =
    match ev with
    | RealtimeClient.Click now =>
        if Harmonic.blank (RealtimeClient.inputIntent (RealtimeClient.ui s))
        then RealtimeClient.inserts s
        else if ApiStatus_eqb (RealtimeClient.apiStatus (RealtimeClient.ui s))
                              connected
             then RealtimeClient.inserts s
                  ++ [RealtimeClient.entry_of (RealtimeClient.ui s) now]
             else RealtimeClient.inserts s
    | RealtimeClient.InsertSettled _ i _ =>
        remove_nth i (RealtimeClient.inserts s)
    | _ => RealtimeClient.inserts s
    end /\
  RealtimeClient.calls s' =
    match ev with
    | RealtimeClient.Click now =>
        if Harmonic.blank (RealtimeClient.inputIntent (RealtimeClient.ui s))
        then RealtimeClient.calls s
        else if ApiStatus_eqb (RealtimeClient.apiStatus (RealtimeClient.ui s))
                              connected
             then RealtimeClient.CallInsert
                    (RealtimeClient.entry_of (RealtimeClient.ui s) now)
                  :: RealtimeClient.calls s
             else RealtimeClient.calls s
    | RealtimeClient.FeedDelete =>
        RealtimeClient.CallSelect :: RealtimeClient.calls s
    | RealtimeClient.PresenceStatus now RealtimeClient.SUBSCRIBED =>
        RealtimeClient.CallTrack now now :: RealtimeClient.calls s
    | _ => RealtimeClient.calls s
    end.
Proof.
  rt_cases s ev; rt_split; intro H; inversion H; subst;
    repeat split; reflexivity.
Qed.

(** A click is always handled, and so is a notification on a subscribed
    client and the answer to a request in flight. *)
Lemma rt_click_handled (s : RealtimeClient.Sys) (now : Z) :
  exists s', RealtimeClient.step s (RealtimeClient.Click now) = Next s'.
Proof.
  destruct s as [[intent tone out view coh status users dbg toasts]
                   sel ins fd pr timers toastn log].
  rt_compute; rt_split; eexists; reflexivity.
Qed.

Lemma rt_feed_insert_handled (s : RealtimeClient.Sys) (e : Entry) :
  RealtimeClient.feed s = true ->
  exists s', RealtimeClient.step s (RealtimeClient.FeedInsert e) = Next s'.
Proof.
  destruct s as [[intent tone out view coh status users dbg toasts]
                   sel ins fd pr timers toastn log].
  rt_compute. intros ->. eexists; reflexivity.
Qed.

Lemma rt_insert_settled_handled (s : RealtimeClient.Sys) (now : Z) (i : nat)
    (entry : Entry) (r : RealtimeClient.QueryResult unit) :
  nth_error (RealtimeClient.inserts s) i = Some entry ->
  exists s',
    RealtimeClient.step s (RealtimeClient.InsertSettled now i r) = Next s'.
Proof.
  destruct s as [[intent tone out view coh status users dbg toasts]
                   sel ins fd pr timers toastn log].
  rt_compute. intros ->. rt_split; eexists; reflexivity.
Qed.

Lemma rt_click_blank (s : RealtimeClient.Sys) (now : Z) :
  whitespace_only (RealtimeClient.inputIntent (RealtimeClient.ui s)) ->
  RealtimeClient.step s (RealtimeClient.Click now) = Next s.
Proof.
  intro H. apply blank_true in H.
  destruct s as [[intent tone out view coh status users dbg toasts]
                   sel ins fd pr timers toastn log].
  revert H. rt_compute. intros ->. reflexivity.
Qed.

Lemma not_connected (a : ApiStatus) :
  a <> connected -> ApiStatus_eqb a connected = false.
Proof. destruct a; simpl; congruence. Qed.


Lemma rt_click_remote (s : RealtimeClient.Sys) (now : Z) :
  ~ whitespace_only (RealtimeClient.inputIntent (RealtimeClient.ui s)) ->
  RealtimeClient.apiStatus (RealtimeClient.ui s) = connected ->
  exists s',
    RealtimeClient.step s (RealtimeClient.Click now) = Next s' /\
    RealtimeClient.memoryDisplay (RealtimeClient.ui s') =
      RealtimeClient.memoryDisplay (RealtimeClient.ui s) /\
    RealtimeClient.apiStatus (RealtimeClient.ui s') = connected /\
    RealtimeClient.inserts s' =
      RealtimeClient.inserts s
      ++ [RealtimeClient.entry_of (RealtimeClient.ui s) now] /\
    RealtimeClient.calls s' =
      RealtimeClient.CallInsert (RealtimeClient.entry_of (RealtimeClient.ui s) now)
      :: RealtimeClient.calls s.
Proof.
  intros H K. apply blank_false in H.
  destruct (rt_click_handled s now) as (s' & E). exists s'.
  pose proof (rt_step_view _ _ _ E) as V.
  pose proof (rt_step_status _ _ _ E) as T.
  destruct (rt_step_io _ _ _ E) as (_ & _ & I & C).
  unfold RealtimeClient.mutation in V. rewrite H, K in V, I, C.
  simpl in V, I, C. rewrite K in T. auto.
Qed.



(** ** The fetch client, one event at a time *)

Ltac fc_compute :=
  cbv [FetchClient.step exec bind ret throw try_catch modify
       FetchClient.processHarmonicResponse FetchClient.on_fetch_settled
       FetchClient.on_post_settled FetchClient.useEffect_mount
       FetchClient.setInputIntent FetchClient.setFieldTone
       FetchClient.setOutputResponse FetchClient.setMemoryDisplay
       FetchClient.setCoherenceScore FetchClient.setApiStatus
       FetchClient.on_ui FetchClient.fetch_get FetchClient.fetch_post
       FetchClient.settle_get FetchClient.settle_post
       FetchClient.ui FetchClient.fetching FetchClient.posts
       FetchClient.calls
       FetchClient.memoryDisplay FetchClient.apiStatus
       FetchClient.inputIntent FetchClient.fieldTone
       FetchClient.outputResponse FetchClient.coherenceScore
       FetchClient.mutation Js.slice_to record_mutation].

Ltac fc_cases s ev :=
  destruct s as [[intent tone out view coh status] fetching posts log];
  destruct ev as [v|v|now|r|i resolved];
  fc_compute.

Lemma fc_step_no_fault (env : Config.Env) (s : FetchClient.Sys)
    (ev : FetchClient.Event) (e : Error) :
  FetchClient.step env s ev <> Unhandled e.
Proof.
  fc_cases s ev; rt_split; discriminate.
Qed.

Lemma fc_step_view (env : Config.Env) (s s' : FetchClient.Sys)
    (ev : FetchClient.Event) :
  FetchClient.step env s ev = Next s' ->
  FetchClient.memoryDisplay (FetchClient.ui s') =
  match FetchClient.mutation s ev with
  | None => FetchClient.memoryDisplay (FetchClient.ui s)
  | Some (Seed l) => firstn 5 l
  | Some (Arrive e) =>
      firstn 5 (e :: FetchClient.memoryDisplay (FetchClient.ui s))
  end.
Proof.
  fc_cases s ev; rt_split; intro H; inversion H; subst; reflexivity.
Qed.

Lemma fc_step_status (env : Config.Env) (s s' : FetchClient.Sys)
    (ev : FetchClient.Event) :
  FetchClient.step env s ev = Next s' ->
  FetchClient.apiStatus (FetchClient.ui s') =
  match ev with
  | FetchClient.FetchSettled (FetchClient.Responded true (FetchClient.Parsed _)) =>
      connected
  | FetchClient.FetchSettled _ => error
  | _ => FetchClient.apiStatus (FetchClient.ui s)
  end.
Proof.
  fc_cases s ev; rt_split; intro H; inversion H; subst; reflexivity.
Qed.

Lemma fc_step_offline (env : Config.Env) (s s' : FetchClient.Sys)
    (ev : FetchClient.Event) :
  FetchClient.step env s ev = Next s' ->
  FetchClient.offline s /\
  FetchClient.apiStatus (FetchClient.ui s) = not_configured ->
  FetchClient.offline s' /\
  FetchClient.apiStatus (FetchClient.ui s') = not_configured.
Proof.
  unfold FetchClient.offline.
  fc_cases s ev; rt_split; intros H (I & J); simpl in *;
    destruct I as (? & ? & ?); subst; try discriminate;
    inversion H; subst; simpl; repeat split; try reflexivity;
    try discriminate.
  all: match goal with
       | K : nth_error [] ?i = Some _ |- _ => destruct i; discriminate K
       end.
Qed.

Lemma fc_click_blank (env : Config.Env) (s : FetchClient.Sys) (now : Z) :
  whitespace_only (FetchClient.inputIntent (FetchClient.ui s)) ->
  FetchClient.step env s (FetchClient.Click now) = Next s.
Proof.
  intro H. apply blank_true in H.
  destruct s as [[intent tone out view coh status] fetching posts log].
  revert H. fc_compute. intros ->. reflexivity.
Qed.

Lemma fc_click_score (env : Config.Env) (s s' : FetchClient.Sys) (now : Z) :
  ~ whitespace_only (FetchClient.inputIntent (FetchClient.ui s)) ->
  FetchClient.step env s (FetchClient.Click now) = Next s' ->
  FetchClient.coherenceScore (FetchClient.ui s') =
    Harmonic.score_of (Harmonic.hash (FetchClient.inputIntent (FetchClient.ui s))
                                     (FetchClient.fieldTone (FetchClient.ui s))).
Proof.
  intros H. apply blank_false in H.
  destruct s as [[intent tone out view coh status] fetching posts log].
  revert H. fc_compute. intros ->. rt_split; intro K; inversion K; reflexivity.
Qed.

Lemma fc_click_handled (env : Config.Env) (s : FetchClient.Sys) (now : Z) :
  exists s', FetchClient.step env s (FetchClient.Click now) = Next s'.
Proof.
  destruct s as [[intent tone out view coh status] fetching posts log].
  fc_compute; rt_split; eexists; reflexivity.
Qed.

Lemma fc_post_settled_handled (env : Config.Env) (s : FetchClient.Sys)
    (i : nat) (entry : Entry) (resolved : bool) :
  nth_error (FetchClient.posts s) i = Some entry ->
  exists s',
    FetchClient.step env s (FetchClient.PostSettled i resolved) = Next s'.
Proof.
  destruct s as [[intent tone out view coh status] fetching posts log].
  fc_compute. intros ->. rt_split; eexists; reflexivity.
Qed.


(** ** Sessions *)

Section Traces.
Context {S Ev : Type} (step : S -> Ev -> Outcome S).

Lemma run_invariant_on (ok : Ev -> bool) (P : S -> Prop) :
  (forall s s' ev, ok ev = true -> step s ev = Next s' -> P s -> P s') ->
  forall evs s s',
    forallb ok evs = true -> run step s evs = Next s' -> P s -> P s'.
Proof.
  intros Hstep. induction evs as [|ev evs IH]; simpl; intros s s' Hok Hrun HP.
  - inversion Hrun; subst; assumption.
  - apply andb_prop in Hok. destruct Hok as [Hev Hevs].
    destruct (step s ev) as [s1| |] eqn:E; try discriminate.
    eapply IH; eauto.
Qed.

Lemma run_invariant (P : S -> Prop) :
  (forall s s' ev, step s ev = Next s' -> P s -> P s') ->
  forall evs s s', run step s evs = Next s' -> P s -> P s'.
Proof.
  intros Hstep evs s s' Hrun HP.
  assert (A : forallb (fun _ : Ev => true) evs = true)
    by (clear; induction evs; simpl; auto).
  exact (run_invariant_on (fun _ => true) P
           (fun s s' ev _ => Hstep s s' ev) evs s s' A Hrun HP).
Qed.


End Traces.

Lemma eqb_refl (a : Js.str) : Js.eqb a a = true.
Proof.
  induction a as [|c a IH]; simpl; [reflexivity|].
  now rewrite N.eqb_refl, IH.
Qed.

Lemma unconfigured_detected (env : Config.Env) :
  unconfigured env -> Config.not_configured env = true.
Proof.
  unfold unconfigured, missing, Config.not_configured,
    Config.SUPABASE_URL, Config.SUPABASE_ANON_KEY.
  intros [[H|H]|[H|H]]; rewrite H; simpl; rewrite ?eqb_refl, ?orb_true_r;
    reflexivity.
Qed.

Lemma rt_mount_unconfigured (env : Config.Env) (now : Z) :
  Config.not_configured env = true ->
  exists s, exec (RealtimeClient.useEffect_mount env now) RealtimeClient.init
            = Next s /\
            RealtimeClient.offline s /\
            RealtimeClient.apiStatus (RealtimeClient.ui s) = not_configured.
Proof.
  intro H. unfold RealtimeClient.useEffect_mount. rewrite H.
  unfold RealtimeClient.offline, RealtimeClient.init, RealtimeClient.ui0.
  rt_compute. eexists. split; [reflexivity|].
  repeat split; reflexivity.
Qed.



Lemma fc_mount (env : Config.Env) :
  exists s, exec (FetchClient.useEffect_mount env) FetchClient.init = Next s /\
            FetchClient.memoryDisplay (FetchClient.ui s) = [] /\
            (Config.not_configured env = true ->
             FetchClient.offline s /\
             FetchClient.apiStatus (FetchClient.ui s) = not_configured).
Proof.
  unfold FetchClient.useEffect_mount, FetchClient.offline,
    FetchClient.init, FetchClient.ui0.
  destruct (Config.not_configured env); fc_compute.
  - eexists. split; [reflexivity|]. repeat split; reflexivity.
  - eexists. split; [reflexivity|]. split; [reflexivity|]. discriminate.
Qed.


(** * The claims *)

(** ** C1 *)

(** C1, as the spec states it, fails: the realtime callback prepends what it
    is handed without looking at ids, so the same stored entry delivered twice
    is displayed twice. *)
Lemma C1_duplicate_delivery_shown_twice :
  match RealtimeClient.session env_configured 0
          [RealtimeClient.SelectSettled 1 (RealtimeClient.Resolved (Some []) None);
           RealtimeClient.FeedInsert hello_stored;
           RealtimeClient.FeedInsert hello_stored] with
  | Next s =>
      RealtimeClient.memoryDisplay (RealtimeClient.ui s)
        = [hello_stored; hello_stored] /\
      count_id 7 (RealtimeClient.memoryDisplay (RealtimeClient.ui s)) = 2%nat /\
      count_id 7 (RealtimeClient.memoryDisplay (RealtimeClient.ui s)) <> 1%nat
  | _ => False
  end.
Proof. vm_compute. repeat split. discriminate. Qed.

(** C1, amended: on a subscribed client every delivery of an insert
    notification puts the delivered entry at the head of the view and keeps
    the first four of the entries displayed before, with no comparison of ids
    or fields; delivered twice, the entry takes the first two places, so an
    entry with an id is then displayed at least twice. *)
Theorem C1_each_delivery_prepends (s : RealtimeClient.Sys) (e : Entry) :
  RealtimeClient.feed s = true ->
  exists s1 s2,
    RealtimeClient.step s (RealtimeClient.FeedInsert e) = Next s1 /\
    RealtimeClient.memoryDisplay (RealtimeClient.ui s1) =
      e :: firstn 4 (RealtimeClient.memoryDisplay (RealtimeClient.ui s)) /\
    RealtimeClient.step s1 (RealtimeClient.FeedInsert e) = Next s2 /\
    RealtimeClient.memoryDisplay (RealtimeClient.ui s2) =
      e :: e :: firstn 3 (RealtimeClient.memoryDisplay (RealtimeClient.ui s)) /\
    (forall i, id e = Some i ->
       (2 <= count_id i (RealtimeClient.memoryDisplay (RealtimeClient.ui s2)))%nat).
Proof.
  intro F.
  destruct (rt_feed_insert_handled s e F) as (s1 & H1).
  assert (F1 : RealtimeClient.feed s1 = true)
    by (rewrite (proj1 (rt_step_io _ _ _ H1)); assumption).
  destruct (rt_feed_insert_handled s1 e F1) as (s2 & H2).
  exists s1, s2.
  pose proof (rt_step_view _ _ _ H1) as V1.
  pose proof (rt_step_view _ _ _ H2) as V2.
  cbn [RealtimeClient.mutation] in V1, V2.
  assert (V : RealtimeClient.memoryDisplay (RealtimeClient.ui s2) =
              e :: e :: firstn 3 (RealtimeClient.memoryDisplay (RealtimeClient.ui s))).
  { rewrite V2, V1, firstn_cons, firstn_firstn. reflexivity. }
  repeat split; try assumption.
  intros i Hi. rewrite V. unfold count_id. cbn [filter].
  rewrite Hi, Z.eqb_refl. cbn [List.length]. lia.
Qed.

Lemma C1_each_delivery_prepends_example :
  RealtimeClient.feed rt_typed = true /\
  exists s1 s2,
    RealtimeClient.step rt_typed (RealtimeClient.FeedInsert hello_stored)
      = Next s1 /\
    RealtimeClient.memoryDisplay (RealtimeClient.ui s1) =
      hello_stored
      :: firstn 4 (RealtimeClient.memoryDisplay (RealtimeClient.ui rt_typed)) /\
    RealtimeClient.step s1 (RealtimeClient.FeedInsert hello_stored) = Next s2 /\
    RealtimeClient.memoryDisplay (RealtimeClient.ui s2) =
      hello_stored :: hello_stored
      :: firstn 3 (RealtimeClient.memoryDisplay (RealtimeClient.ui rt_typed)) /\
    (forall i, id hello_stored = Some i ->
       (2 <= count_id i (RealtimeClient.memoryDisplay (RealtimeClient.ui s2)))%nat).
Proof.
  split; [reflexivity|].
  apply (C1_each_delivery_prepends rt_typed hello_stored). reflexivity.
Defined.

(** ** C2 *)

(** C2, as the spec states it, fails on both clients.  On the realtime client
    a submit whose insert fails leaves the status [connected]; on the fetch
    client a submit whose POST succeeds is added to the view by the client
    itself. *)
Lemma C2_failed_save_keeps_connected :
  match RealtimeClient.session env_configured 0
          [RealtimeClient.SelectSettled 1 (RealtimeClient.Resolved (Some []) None);
           RealtimeClient.TypeIntent (Js.lit "Hello");
           RealtimeClient.SelectTone (Js.lit "Trust");
           RealtimeClient.Click 2;
           RealtimeClient.InsertSettled 3 0 (RealtimeClient.Rejected unreachable)] with
  | Next s =>
      List.length (RealtimeClient.memoryDisplay (RealtimeClient.ui s)) = 1%nat /\
      RealtimeClient.apiStatus (RealtimeClient.ui s) = connected /\
      RealtimeClient.apiStatus (RealtimeClient.ui s) <> error
  | _ => False
  end
  /\
  match FetchClient.session env_configured
          [FetchClient.FetchSettled
             (FetchClient.Responded true (FetchClient.Parsed (FetchClient.JArray [])));
           FetchClient.TypeIntent (Js.lit "Hello");
           FetchClient.SelectTone (Js.lit "Trust");
           FetchClient.Click 2;
           FetchClient.PostSettled 0 true] with
  | Next s =>
      FetchClient.apiStatus (FetchClient.ui s) = connected /\
      List.length (FetchClient.memoryDisplay (FetchClient.ui s)) = 1%nat
  | _ => False
  end.
Proof. vm_compute. repeat split. discriminate. Qed.

(** C2, amended.  On the realtime client a submit made while [connected]
    leaves the view as it is and queues the insert; when the insert succeeds
    the view is still left as it is (the notification will bring the entry),
    and when it fails the entry is put at the head of the local view, cut to
    five; either way the status is left as it was.  On the fetch client the
    entry is put at the head of the view, cut to five, once the POST has
    settled, whether it succeeded or not, and the status is left as it was. *)
Theorem C2_submit_paths
    (s : RealtimeClient.Sys) (now : Z) (i : nat) (entry : Entry)
    (r : RealtimeClient.QueryResult unit)
    (env : Config.Env) (c : FetchClient.Sys) (resolved : bool) :
  (~ whitespace_only (RealtimeClient.inputIntent (RealtimeClient.ui s)) ->
   RealtimeClient.apiStatus (RealtimeClient.ui s) = connected ->
   exists s',
     RealtimeClient.step s (RealtimeClient.Click now) = Next s' /\
     RealtimeClient.memoryDisplay (RealtimeClient.ui s') =
       RealtimeClient.memoryDisplay (RealtimeClient.ui s) /\
     RealtimeClient.apiStatus (RealtimeClient.ui s') = connected /\
     RealtimeClient.inserts s' =
       RealtimeClient.inserts s
       ++ [RealtimeClient.entry_of (RealtimeClient.ui s) now])
  /\
  (nth_error (RealtimeClient.inserts s) i = Some entry ->
   exists s',
     RealtimeClient.step s (RealtimeClient.InsertSettled now i r) = Next s' /\
     RealtimeClient.apiStatus (RealtimeClient.ui s') =
       RealtimeClient.apiStatus (RealtimeClient.ui s) /\
     RealtimeClient.memoryDisplay (RealtimeClient.ui s') =
       if RealtimeClient.failed r
       then entry :: firstn 4 (RealtimeClient.memoryDisplay (RealtimeClient.ui s))
       else RealtimeClient.memoryDisplay (RealtimeClient.ui s))
  /\
  (nth_error (FetchClient.posts c) i = Some entry ->
   exists c',
     FetchClient.step env c (FetchClient.PostSettled i resolved) = Next c' /\
     FetchClient.apiStatus (FetchClient.ui c') =
       FetchClient.apiStatus (FetchClient.ui c) /\
     FetchClient.memoryDisplay (FetchClient.ui c') =
       firstn 5 (entry :: FetchClient.memoryDisplay (FetchClient.ui c))).
Proof.
  split; [|split].
  - intros H K. destruct (rt_click_remote s now H K) as (s' & A & B & C & D & _).
    exists s'. auto.
  - intro H.
    destruct (rt_insert_settled_handled s now i entry r H) as (s' & E).
    exists s'. split; [assumption|].
    rewrite (rt_step_status _ _ _ E), (rt_step_view _ _ _ E).
    unfold RealtimeClient.mutation. rewrite H. split; [reflexivity|].
    destruct (RealtimeClient.failed r); reflexivity.
  - intro H.
    destruct (fc_post_settled_handled env c i entry resolved H) as (c' & E).
    exists c'. split; [assumption|].
    rewrite (fc_step_status _ _ _ _ E), (fc_step_view _ _ _ _ E).
    unfold FetchClient.mutation. rewrite H. split; reflexivity.
Qed.

Lemma C2_submit_paths_example :
  (exists s',
     RealtimeClient.step rt_typed (RealtimeClient.Click 2) = Next s' /\
     RealtimeClient.memoryDisplay (RealtimeClient.ui s') =
       RealtimeClient.memoryDisplay (RealtimeClient.ui rt_typed) /\
     RealtimeClient.apiStatus (RealtimeClient.ui s') = connected /\
     RealtimeClient.inserts s' =
       RealtimeClient.inserts rt_typed
       ++ [RealtimeClient.entry_of (RealtimeClient.ui rt_typed) 2])
  /\
  (exists s',
     RealtimeClient.step rt_saving
       (RealtimeClient.InsertSettled 3 0 (RealtimeClient.Rejected unreachable))
       = Next s' /\
     RealtimeClient.apiStatus (RealtimeClient.ui s') =
       RealtimeClient.apiStatus (RealtimeClient.ui rt_saving) /\
     RealtimeClient.memoryDisplay (RealtimeClient.ui s') =
       RealtimeClient.entry_of (RealtimeClient.ui rt_typed) 2
       :: firstn 4 (RealtimeClient.memoryDisplay (RealtimeClient.ui rt_saving)))
  /\
  (exists c',
     FetchClient.step env_configured fc_saving (FetchClient.PostSettled 0 true)
       = Next c' /\
     FetchClient.apiStatus (FetchClient.ui c') =
       FetchClient.apiStatus (FetchClient.ui fc_saving) /\
     FetchClient.memoryDisplay (FetchClient.ui c') =
       firstn 5 (FetchClient.memoryEntry_of (FetchClient.ui fc_typed) 2
                   :: FetchClient.memoryDisplay (FetchClient.ui fc_saving))).
Proof.
  split; [|split].
  - apply (C2_submit_paths rt_typed 2 0 hello
             (RealtimeClient.Rejected unreachable)
             env_configured fc_saving true).
    + apply blank_false. vm_compute. reflexivity.
    + vm_compute. reflexivity.
  - apply (C2_submit_paths rt_saving 3 0
             (RealtimeClient.entry_of (RealtimeClient.ui rt_typed) 2)
             (RealtimeClient.Rejected unreachable)
             env_configured fc_saving true).
    vm_compute. reflexivity.
  - apply (C2_submit_paths rt_saving 3 0
             (FetchClient.memoryEntry_of (FetchClient.ui fc_typed) 2)
             (RealtimeClient.Rejected unreachable)
             env_configured fc_saving true).
    vm_compute. reflexivity.
Defined.

(** ** C3 *)







(** ** C4 *)

(** C4, as the spec states it, fails on [server.js]: its GET takes no limit
    and answers with the whole store in the order of insertion, oldest
    first. *)
Lemma C4_get_answers_all_oldest_first :
  exists e1 e2,
    snd (Server.serve Server.harmonicMemory0
           [Server.POST 1 1 hello; Server.POST 2 2 hello; Server.GET])
    = [Server.Created 201 e1; Server.Created 201 e2;
       Server.Entries 200 [e1; e2]] /\
    timestamp e1 = 1 /\ timestamp e2 = 2 /\
    ~ recent_first [e1; e2] /\
    ~ (List.length [e1; e2] <= 1)%nat.
Proof.
  eexists. eexists. split; [vm_compute; reflexivity|].
  split; [reflexivity|]. split; [reflexivity|]. split.
  - intro H. apply StronglySorted_inv in H. destruct H as [_ H].
    apply Forall_inv in H. simpl in H. lia.
  - simpl. lia.
Qed.

(** C4, amended: for every store state the server reaches while its clock
    does not run backwards, GET answers with all the stored entries, at most
    a hundred, oldest first, whatever limit the caller has in mind; that list
    reversed and cut to its first [n] entries, which is what the fetch client
    does with [n = 5], is latest first and at most [n] long.  The query of
    the realtime client, by timestamp descending with limit [n], gives at
    most [n] rows, latest first, all of them rows of the table. *)
Theorem C4_listing (rs : list Server.Request) (mem : Server.Memory)
    (answers : list Server.Reply) (n : nat) (rows : list Entry) :
  clock_monotone rs ->
  Server.serve Server.harmonicMemory0 rs = (mem, answers) ->
  Server.get mem = (mem, Server.Entries 200 mem) /\
  oldest_first mem /\ (List.length mem <= 100)%nat /\
  (List.length (Js.slice_to n (rev mem)) <= n)%nat /\
  recent_first (Js.slice_to n (rev mem)) /\
  (List.length (Store.select_recent n rows) <= n)%nat /\
  recent_first (Store.select_recent n rows) /\
  incl (Store.select_recent n rows) rows.
Proof.
  intros Hclock Hserve.
  assert (Hold : oldest_first mem).
  { change mem with (fst (mem, answers)). rewrite <- Hserve.
    apply serve_keeps_order. exact Hclock. }
  repeat split.
  - exact Hold.
  - change mem with (fst (mem, answers)). rewrite <- Hserve.
    apply serve_bounded. simpl. lia.
  - apply firstn_le_length.
  - apply StronglySorted_firstn.
    exact (StronglySorted_rev _ _ Hold).
  - apply select_recent_length.
  - apply select_recent_sorted.
  - intros u Hu. apply order_desc_In.
    unfold Store.select_recent in Hu.
    rewrite <- (firstn_skipn n (Store.order_desc rows)).
    apply in_or_app. left. exact Hu.
Qed.

Lemma C4_listing_example :
  let rs := [Server.POST 1 1 hello; Server.POST 2 2 hello; Server.GET] in
  let mem := fst (Server.serve Server.harmonicMemory0 rs) in
  Server.get mem = (mem, Server.Entries 200 mem) /\
  oldest_first mem /\ (List.length mem <= 100)%nat /\
  (List.length (Js.slice_to 1 (rev mem)) <= 1)%nat /\
  recent_first (Js.slice_to 1 (rev mem)) /\
  (List.length (Store.select_recent 1 mem) <= 1)%nat /\
  recent_first (Store.select_recent 1 mem) /\
  incl (Store.select_recent 1 mem) mem.
Proof.
  intros rs mem.
  apply (C4_listing rs mem (snd (Server.serve Server.harmonicMemory0 rs)) 1 mem).
  - unfold clock_monotone. simpl. repeat constructor. lia.
  - vm_compute. reflexivity.
Defined.

(** ** C5 *)

(** C5: after more than a hundred appends, whatever the store held before,
    it holds exactly the last hundred of the appended entries, in the order
    they were appended (the earlier ones, and all that was there before, have
    been dropped from the front), and every append was answered 201 with the
    entry it created. *)
Theorem C5_store_keeps_last_hundred (mem : Server.Memory) (ps : list Append) :
  (100 < List.length ps)%nat ->
  Server.serve mem (map append_request ps) =
  (skipn (List.length ps - 100) (map appended ps),
   map (Server.Created 201) (map appended ps)) /\
  List.length (fst (Server.serve mem (map append_request ps))) = 100%nat.
Proof.
  intro H. rewrite serve_appends.
  destruct ps as [|p ps]; [simpl in H; lia|].
  rewrite slice_last_drop_front by (rewrite length_map; lia).
  unfold Js.slice_last. rewrite length_map. split; [reflexivity|].
  cbn [fst]. rewrite length_skipn, length_map. lia.
Qed.

Lemma C5_store_keeps_last_hundred_example :
  Server.serve [hello_stored] (map append_request hundred_and_one) =
  (skipn (List.length hundred_and_one - 100) (map appended hundred_and_one),
   map (Server.Created 201) (map appended hundred_and_one)) /\
  List.length (fst (Server.serve [hello_stored]
                      (map append_request hundred_and_one))) = 100%nat.
Proof.
  apply (C5_store_keeps_last_hundred [hello_stored] hundred_and_one).
  vm_compute. repeat constructor.
Defined.

(** ** C6 *)



(** ** C7 *)

(** C7: when the URL or the key is absent from the environment, or holds
    the placeholder, every session of either client stays [not_configured]
    and makes no network call at all: no query, no insert or POST, no
    subscription, and nothing is awaited from the network. *)
Theorem C7_unconfigured_stays_local
    (env : Config.Env) (now : Z) (evs : list RealtimeClient.Event)
    (s : RealtimeClient.Sys) (fevs : list FetchClient.Event)
    (c : FetchClient.Sys) :
  unconfigured env ->
  (RealtimeClient.session env now evs = Next s ->
   RealtimeClient.apiStatus (RealtimeClient.ui s) = not_configured /\
   RealtimeClient.calls s = [] /\ RealtimeClient.offline s)
  /\
  (FetchClient.session env fevs = Next c ->
   FetchClient.apiStatus (FetchClient.ui c) = not_configured /\
   FetchClient.calls c = [] /\ FetchClient.offline c).
Proof.
  intro Hu. apply unconfigured_detected in Hu. split.
  - unfold RealtimeClient.session.
    destruct (rt_mount_unconfigured env now Hu) as (s0 & E & O0 & T0).
    rewrite E. intro Hrun.
    destruct (run_invariant RealtimeClient.step
                (fun t => RealtimeClient.offline t /\
                          RealtimeClient.apiStatus (RealtimeClient.ui t)
                          = not_configured)
                rt_step_offline evs s0 s Hrun (conj O0 T0)) as [O T].
    split; [exact T|]. split; [exact (proj1 O)|exact O].
  - unfold FetchClient.session.
    destruct (fc_mount env) as (c0 & E & _ & I0).
    destruct (I0 Hu) as [O0 T0]. rewrite E. intro Hrun.
    destruct (run_invariant (FetchClient.step env)
                (fun t => FetchClient.offline t /\
                          FetchClient.apiStatus (FetchClient.ui t)
                          = not_configured)
                (fc_step_offline env) fevs c0 c Hrun (conj O0 T0)) as [O T].
    split; [exact T|]. split; [exact (proj1 O)|exact O].
Qed.

Lemma C7_unconfigured_stays_local_example :
  let s := ending (RealtimeClient.session env_bare 0 rt_local_events)
                  RealtimeClient.init in
  let c := ending (FetchClient.session env_bare fc_local_events)
                  FetchClient.init in
  (RealtimeClient.apiStatus (RealtimeClient.ui s) = not_configured /\
   RealtimeClient.calls s = [] /\ RealtimeClient.offline s)
  /\
  (FetchClient.apiStatus (FetchClient.ui c) = not_configured /\
   FetchClient.calls c = [] /\ FetchClient.offline c).
Proof.
  intros s c.
  assert (U : unconfigured env_bare) by (left; left; reflexivity).
  destruct (C7_unconfigured_stays_local env_bare 0 rt_local_events s
              fc_local_events c U) as [A B].
  split; [apply A | apply B]; vm_compute; reflexivity.
Defined.

(** ** C8 *)

(** C8: for [h] from 0 to 99 the score is [100 - |50 - h|], it lies between
    0 and 100, and it is 100 exactly when [h] is 50; and whatever the intent
    and the tone, the score the submit path computes, displays and stores
    lies between 0 and 100. *)
Theorem C8_score_bounds (h : Z) (env : Config.Env) (c c' : FetchClient.Sys)
    (now : Z) :
  (0 <= h <= 99 ->
   Harmonic.score_of h = 100 - Z.abs (50 - h) /\
   0 <= Harmonic.score_of h <= 100 /\
   (Harmonic.score_of h = 100 <-> h = 50))
  /\
  0 <= score (FetchClient.memoryEntry_of (FetchClient.ui c) now) <= 100
  /\
  (~ whitespace_only (FetchClient.inputIntent (FetchClient.ui c)) ->
   FetchClient.step env c (FetchClient.Click now) = Next c' ->
   FetchClient.coherenceScore (FetchClient.ui c') =
     score (FetchClient.memoryEntry_of (FetchClient.ui c) now) /\
   0 <= FetchClient.coherenceScore (FetchClient.ui c') <= 100).
Proof.
  split; [|split].
  - intro H. unfold Harmonic.score_of. rewrite Z.rem_small by lia.
    repeat split; lia.
  - cbn [FetchClient.memoryEntry_of score].
    pose proof (score_of_range _
                  (hash_nonneg (FetchClient.inputIntent (FetchClient.ui c))
                               (FetchClient.fieldTone (FetchClient.ui c)))).
    lia.
  - intros H K. rewrite (fc_click_score env c c' now H K).
    cbn [FetchClient.memoryEntry_of score]. split; [reflexivity|].
    pose proof (score_of_range _
                  (hash_nonneg (FetchClient.inputIntent (FetchClient.ui c))
                               (FetchClient.fieldTone (FetchClient.ui c)))).
    lia.
Qed.

Lemma C8_score_bounds_example :
  (Harmonic.score_of 50 = 100 - Z.abs (50 - 50) /\
   0 <= Harmonic.score_of 50 <= 100 /\
   (Harmonic.score_of 50 = 100 <-> 50 = 50))
  /\
  0 <= score (FetchClient.memoryEntry_of (FetchClient.ui fc_typed) 2) <= 100
  /\
  (FetchClient.coherenceScore (FetchClient.ui fc_saving) =
     score (FetchClient.memoryEntry_of (FetchClient.ui fc_typed) 2) /\
   0 <= FetchClient.coherenceScore (FetchClient.ui fc_saving) <= 100).
Proof.
  destruct (C8_score_bounds 50 env_configured fc_typed fc_saving 2)
    as (A & B & C).
  split; [apply A; lia|]. split; [exact B|].
  apply C.
  - apply blank_false. vm_compute. reflexivity.
  - vm_compute. reflexivity.
Defined.

(** ** C9 *)

(** C9: on either client, in every state, a submit whose intent is empty or
    white space only is handled and leaves everything as it was: the view,
    the response, the score, the status, the messages, the requests in
    flight and the log of network calls. *)
Theorem C9_blank_submit_changes_nothing
    (s : RealtimeClient.Sys) (env : Config.Env) (c : FetchClient.Sys)
    (now : Z) :
  (whitespace_only (RealtimeClient.inputIntent (RealtimeClient.ui s)) ->
   RealtimeClient.step s (RealtimeClient.Click now) = Next s)
  /\
  (whitespace_only (FetchClient.inputIntent (FetchClient.ui c)) ->
   FetchClient.step env c (FetchClient.Click now) = Next c).
Proof.
  split.
  - apply rt_click_blank.
  - apply fc_click_blank.
Qed.

Lemma C9_blank_submit_changes_nothing_example :
  RealtimeClient.step rt_blank (RealtimeClient.Click 5) = Next rt_blank
  /\
  FetchClient.step env_configured fc_blank (FetchClient.Click 5)
    = Next fc_blank.
Proof.
  destruct (C9_blank_submit_changes_nothing rt_blank env_configured fc_blank 5)
    as [A B].
  split; [apply A | apply B]; vm_compute; repeat constructor.
Defined.

(** ** C10 *)

(** C10: the id the server gives the entry of a POST is the reading of the
    clock at that moment, so two POSTs served at the same reading are
    answered with entries of equal id, and both are in the store, one after
    the other. *)
Theorem C10_id_is_the_clock_reading (now_id ts1 ts2 : Z) (b1 b2 : Entry)
    (mem : Server.Memory) :
  let e1 := Server.newEntry now_id ts1 b1 in
  let e2 := Server.newEntry now_id ts2 b2 in
  id e1 = Some now_id /\ id e2 = id e1 /\
  Server.serve mem [Server.POST now_id ts1 b1; Server.POST now_id ts2 b2]
  = (skipn (List.length mem + 2 - 100) mem ++ [e1; e2],
     [Server.Created 201 e1; Server.Created 201 e2]).
Proof.
  intros e1 e2. split; [reflexivity|]. split; [reflexivity|].
  change [Server.POST now_id ts1 b1; Server.POST now_id ts2 b2]
    with (map append_request [(now_id, ts1, b1); (now_id, ts2, b2)]).
  rewrite serve_appends. cbn [map appended]. fold e1 e2. f_equal.
  unfold Js.slice_last. rewrite length_app, skipn_app. cbn [List.length].
  replace (List.length mem + 2 - 100 - List.length mem)%nat with O by lia.
  reflexivity.
Qed.

(** * Beyond the claims *)

(** ** The server *)

Lemma serve_app (a b : list Server.Request) (mem : Server.Memory) :
  Server.serve mem (a ++ b) =
  (fst (Server.serve (fst (Server.serve mem a)) b),
   snd (Server.serve mem a) ++ snd (Server.serve (fst (Server.serve mem a)) b)).
Proof.
  revert mem. induction a as [|r a IH]; intro mem; simpl.
  - destruct (Server.serve mem b); reflexivity.
  - destruct (Server.handle mem r) as [mem1 x1]. rewrite IH.
    destruct (Server.serve mem1 a) as [mem2 answers]. reflexivity.
Qed.

(** X1: a POST followed by a GET lists the store with the created entry in
    the last place; that entry has the fields of the body, except that its
    id and timestamp are the readings of the server's clock, whatever the
    body said, and the list is at most a hundred long. *)
Theorem X1_post_then_get (now_id now_ts : Z) (body : Entry)
    (mem : Server.Memory) :
  exists e,
    Server.serve mem [Server.POST now_id now_ts body; Server.GET] =
    (skipn (List.length mem - 99) mem ++ [e],
     [Server.Created 201 e;
      Server.Entries 200 (skipn (List.length mem - 99) mem ++ [e])]) /\
    (List.length (skipn (List.length mem - 99) mem ++ [e]) <= 100)%nat /\
    x e = x body /\ y e = y body /\ z e = z body /\ score e = score body /\
    user_id e = user_id body /\
    id e = Some now_id /\ timestamp e = now_ts.
Proof.
  exists (Server.newEntry now_id now_ts body).
  cbn [Server.serve Server.handle Server.get]. rewrite post_memory.
  assert (E : Js.slice_last 100 (mem ++ [Server.newEntry now_id now_ts body])
              = skipn (List.length mem - 99) mem
                ++ [Server.newEntry now_id now_ts body]).
  { unfold Js.slice_last. rewrite length_app, skipn_app. cbn [List.length].
    replace (List.length mem + 1 - 100)%nat with (List.length mem - 99)%nat
      by lia.
    replace (List.length mem - 99 - List.length mem)%nat with O by lia.
    reflexivity. }
  rewrite E. split; [reflexivity|]. split.
  - rewrite length_app, length_skipn. cbn [List.length]. lia.
  - repeat split.
Qed.

(** X2: below a hundred stored entries a POST drops nothing; at exactly a
    hundred it drops the oldest entry and no other; and from a store of any
    size it leaves at most a hundred. *)
Theorem X2_post_eviction_edges (now_id now_ts : Z) (body : Entry)
    (mem : Server.Memory) :
  ((List.length mem < 100)%nat ->
   fst (Server.post now_id now_ts body mem)
   = mem ++ [Server.newEntry now_id now_ts body]) /\
  (List.length mem = 100%nat ->
   fst (Server.post now_id now_ts body mem)
   = tl mem ++ [Server.newEntry now_id now_ts body]) /\
  (List.length (fst (Server.post now_id now_ts body mem)) <= 100)%nat.
Proof.
  rewrite post_memory. cbn [fst]. repeat split.
  - intro H. apply slice_last_short. rewrite length_app. simpl. lia.
  - intro H. unfold Js.slice_last. rewrite length_app, H. cbn [List.length].
    change (100 + 1 - 100)%nat with 1%nat.
    destruct mem as [|m mem]; [discriminate|]. reflexivity.
  - rewrite slice_last_length. lia.
Qed.

Lemma X2_post_eviction_edges_example :
  fst (Server.post 7 8 hello [hello_stored])
  = [hello_stored] ++ [Server.newEntry 7 8 hello]
  /\
  fst (Server.post 7 8 hello full_store)
  = tl full_store ++ [Server.newEntry 7 8 hello].
Proof.
  split.
  - apply (X2_post_eviction_edges 7 8 hello [hello_stored]). simpl. lia.
  - apply (X2_post_eviction_edges 7 8 hello full_store).
    vm_compute. reflexivity.
Defined.

(** X3: a DELETE empties the store whatever it held: the appends that follow
    it, up to a hundred of them, are then exactly what a GET lists, in the
    order they were appended. *)
Theorem X3_delete_starts_afresh (mem : Server.Memory) (ps : list Append) :
  (List.length ps <= 100)%nat ->
  Server.serve mem (Server.DELETE :: map append_request ps ++ [Server.GET]) =
  (map appended ps,
   Server.Message 200 "Harmonic memory cleared"
   :: map (Server.Created 201) (map appended ps)
   ++ [Server.Entries 200 (map appended ps)]).
Proof.
  intro H. cbn [Server.serve Server.handle Server.delete].
  rewrite serve_app, serve_appends. cbn [fst snd].
  destruct ps as [|p ps]; [reflexivity|].
  rewrite slice_last_short
    by (cbn [app]; rewrite length_map; exact H).
  reflexivity.
Qed.

Lemma X3_delete_starts_afresh_example :
  Server.serve full_store
    (Server.DELETE :: map append_request three_appends ++ [Server.GET]) =
  (map appended three_appends,
   Server.Message 200 "Harmonic memory cleared"
   :: map (Server.Created 201) (map appended three_appends)
   ++ [Server.Entries 200 (map appended three_appends)]).
Proof.
  apply (X3_delete_starts_afresh full_store three_appends). simpl. lia.
Defined.

(** X4: a GET only reads: taking the GETs out of a run of requests changes
    neither the store the run ends with nor the replies to the other
    requests. *)
Theorem X4_get_only_reads (rs : list Server.Request) (mem : Server.Memory) :
  fst (Server.serve mem (without_reads rs)) = fst (Server.serve mem rs) /\
  snd (Server.serve mem (without_reads rs))
  = without_listings (snd (Server.serve mem rs)).
Proof.
  revert mem. induction rs as [|r rs IH]; intro mem.
  - split; reflexivity.
  - destruct r; cbn [without_reads filter is_read negb Server.serve
                     Server.handle Server.get].
    + specialize (IH mem). unfold without_reads in IH.
      destruct (Server.serve mem rs) as [mem2 answers].
      cbn [fst snd without_listings filter is_listing negb] in *.
      exact IH.
    + destruct (Server.post now_id now_ts body mem) as [mem1 a] eqn:E.
      rewrite post_memory in E. inversion E; subst.
      specialize (IH (Js.slice_last 100
                        (mem ++ [Server.newEntry now_id now_ts body]))).
      unfold without_reads in IH.
      destruct (Server.serve _ (filter _ rs)) as [m3 a3].
      destruct (Server.serve _ rs) as [m2 a2].
      cbn [fst snd without_listings filter is_listing negb] in *.
      destruct IH as [-> ->]. split; reflexivity.
    + cbn [Server.delete]. specialize (IH []). unfold without_reads in IH.
      destruct (Server.serve _ (filter _ rs)) as [m3 a3].
      destruct (Server.serve _ rs) as [m2 a2].
      cbn [fst snd without_listings filter is_listing negb] in *.
      destruct IH as [-> ->]. split; reflexivity.
Qed.

Lemma sorted_lt_NoDup (js : list Z) :
  StronglySorted Z.lt js -> NoDup (map Some js).
Proof.
  induction 1 as [|j js Hs IH F]; simpl; constructor; [|assumption].
  intro H. apply in_map_iff in H. destruct H as (k & E & K).
  inversion E; subst. rewrite Forall_forall in F. specialize (F _ K). lia.
Qed.

Lemma serve_ids (rs : list Server.Request) (mem : Server.Memory)
    (js : list Z) :
  map id mem = map Some js ->
  StronglySorted Z.lt (js ++ post_ids rs) ->
  exists js', map id (fst (Server.serve mem rs)) = map Some js' /\
              StronglySorted Z.lt js'.
Proof.
  revert mem js. induction rs as [|r rs IH]; intros mem js Hm Hs.
  - exists js. simpl in *. rewrite app_nil_r in Hs. auto.
  - simpl. destruct (Server.handle mem r) as [mem1 a] eqn:E.
    assert (G : exists js1, map id mem1 = map Some js1 /\
                            StronglySorted Z.lt (js1 ++ post_ids rs)).
    { destruct r; simpl in E.
      - inversion E; subst. exists js. auto.
      - rewrite post_memory in E. inversion E; subst. clear E.
        exists (skipn (List.length mem + 1 - 100) (js ++ [now_id])). split.
        + unfold Js.slice_last. rewrite length_app. cbn [List.length].
          rewrite <- skipn_map, <- skipn_map, !map_app, Hm. reflexivity.
        + simpl in Hs.
          replace (js ++ now_id :: post_ids rs)
            with ((js ++ [now_id]) ++ post_ids rs) in Hs
            by (rewrite <- app_assoc; reflexivity).
          rewrite <- (firstn_skipn (List.length mem + 1 - 100) (js ++ [now_id])),
            <- app_assoc in Hs.
          apply StronglySorted_app in Hs. tauto.
      - inversion E; subst. exists []. split; [reflexivity|].
        simpl in *. apply StronglySorted_app in Hs. tauto. }
    destruct G as (js1 & Hm1 & Hs1).
    specialize (IH mem1 js1 Hm1 Hs1).
    destruct (Server.serve mem1 rs) as [mem2 answers]. exact IH.
Qed.

(** X5: when the readings of [Date.now()] at the POSTs are strictly
    increasing, every stored entry has an id, the ids in the store are
    strictly increasing in the order of the store, and so no two stored
    entries share an id. *)
Theorem X5_distinct_readings_distinct_ids (rs : list Server.Request)
    (mem : Server.Memory) (answers : list Server.Reply) :
  StronglySorted Z.lt (post_ids rs) ->
  Server.serve Server.harmonicMemory0 rs = (mem, answers) ->
  (exists js, map id mem = map Some js /\ StronglySorted Z.lt js) /\
  NoDup (map id mem).
Proof.
  intros Hs Hserve.
  destruct (serve_ids rs Server.harmonicMemory0 [] eq_refl Hs) as (js & A & B).
  rewrite Hserve in A. cbn [fst] in A. split.
  - exists js. auto.
  - rewrite A. apply sorted_lt_NoDup, B.
Qed.

Lemma X5_distinct_readings_distinct_ids_example :
  let rs := Server.GET :: map append_request three_appends in
  let mem := fst (Server.serve Server.harmonicMemory0 rs) in
  (exists js, map id mem = map Some js /\ StronglySorted Z.lt js) /\
  NoDup (map id mem).
Proof.
  intros rs mem.
  apply (X5_distinct_readings_distinct_ids rs mem
           (snd (Server.serve Server.harmonicMemory0 rs))).
  - simpl. repeat constructor; lia.
  - vm_compute. reflexivity.
Defined.

(** ** The response and the score *)

Lemma hash_sum (inputIntent fieldTone : Js.str) :
  Harmonic.hash inputIntent fieldTone
  = Js.length inputIntent + 1 + Js.length fieldTone.
Proof.
  unfold Harmonic.hash, Harmonic.combinedField, Js.length.
  rewrite !length_app.
  change (List.length (Js.lit "-")) with 1%nat. lia.
Qed.

(** X6: the hash of a submit is the length of the intent plus one plus the
    length of the tone, so it is never zero, and two submits whose lengths
    add up to the same get the same response and the same score, whatever
    their texts. *)
Theorem X6_response_depends_on_lengths (i1 t1 i2 t2 : Js.str) :
  Harmonic.hash i1 t1 = Js.length i1 + 1 + Js.length t1 /\
  1 <= Harmonic.hash i1 t1 /\
  (Js.length i1 + Js.length t1 = Js.length i2 + Js.length t2 ->
   Harmonic.result_of (Harmonic.hash i1 t1)
   = Harmonic.result_of (Harmonic.hash i2 t2) /\
   Harmonic.score_of (Harmonic.hash i1 t1)
   = Harmonic.score_of (Harmonic.hash i2 t2)).
Proof.
  split; [apply hash_sum|]. split.
  - rewrite hash_sum. unfold Js.length. lia.
  - intro H. rewrite !hash_sum.
    replace (Js.length i1 + 1 + Js.length t1)
      with (Js.length i2 + 1 + Js.length t2) by lia.
    split; reflexivity.
Qed.

Lemma X6_response_depends_on_lengths_example :
  Harmonic.result_of (Harmonic.hash (Js.lit "Hello") (Js.lit "Trust"))
  = Harmonic.result_of (Harmonic.hash (Js.lit "Why") (Js.lit "Neutral")) /\
  Harmonic.score_of (Harmonic.hash (Js.lit "Hello") (Js.lit "Trust"))
  = Harmonic.score_of (Harmonic.hash (Js.lit "Why") (Js.lit "Neutral")).
Proof.
  apply (X6_response_depends_on_lengths
           (Js.lit "Hello") (Js.lit "Trust") (Js.lit "Why") (Js.lit "Neutral")).
  reflexivity.
Defined.

(** X7: for every hash that is not negative, as every length is, the score
    lies between 50 and 100; it is 100 exactly when [hash % 100] is 50, it
    is 50 exactly when the hash is a multiple of 100, and it repeats every
    100. *)
Theorem X7_score_between_50_and_100 (h : Z) :
  0 <= h ->
  50 <= Harmonic.score_of h <= 100 /\
  (Harmonic.score_of h = 100 <-> Z.rem h 100 = 50) /\
  (Harmonic.score_of h = 50 <-> Z.rem h 100 = 0) /\
  Harmonic.score_of (h + 100) = Harmonic.score_of h.
Proof.
  intro H. unfold Harmonic.score_of.
  rewrite (Z.rem_mod_nonneg (h + 100) 100), (Z.rem_mod_nonneg h 100) by lia.
  pose proof (Z.mod_pos_bound h 100 ltac:(lia)).
  replace (h + 100) with (h + 1 * 100) by lia. rewrite Z.mod_add by lia.
  repeat split; lia.
Qed.

Lemma X7_score_between_50_and_100_example :
  50 <= Harmonic.score_of 250 <= 100 /\
  (Harmonic.score_of 250 = 100 <-> Z.rem 250 100 = 50) /\
  (Harmonic.score_of 250 = 50 <-> Z.rem 250 100 = 0) /\
  Harmonic.score_of (250 + 100) = Harmonic.score_of 250.
Proof. apply (X7_score_between_50_and_100 250). lia. Defined.

Lemma responses_truthy :
  Forall (fun r => Js.truthy r = true) Harmonic.responses.
Proof. repeat constructor. Qed.

Lemma rt_click_output (s s' : RealtimeClient.Sys) (now : Z) :
  ~ whitespace_only (RealtimeClient.inputIntent (RealtimeClient.ui s)) ->
  RealtimeClient.step s (RealtimeClient.Click now) = Next s' ->
  RealtimeClient.outputResponse (RealtimeClient.ui s') =
    Harmonic.result_of
      (Harmonic.hash (RealtimeClient.inputIntent (RealtimeClient.ui s))
                     (RealtimeClient.fieldTone (RealtimeClient.ui s))) /\
  RealtimeClient.coherenceScore (RealtimeClient.ui s') =
    Harmonic.score_of
      (Harmonic.hash (RealtimeClient.inputIntent (RealtimeClient.ui s))
                     (RealtimeClient.fieldTone (RealtimeClient.ui s))).
Proof.
  intros H. apply blank_false in H.
  destruct s as [[intent tone out view coh status users dbg toasts]
                   sel ins fd pr timers toastn log].
  revert H. rt_compute. intros ->.
  rt_split; intro K; inversion K; split; reflexivity.
Qed.

Lemma fc_click_output (env : Config.Env) (s s' : FetchClient.Sys) (now : Z) :
  ~ whitespace_only (FetchClient.inputIntent (FetchClient.ui s)) ->
  FetchClient.step env s (FetchClient.Click now) = Next s' ->
  FetchClient.outputResponse (FetchClient.ui s') =
    Harmonic.result_of
      (Harmonic.hash (FetchClient.inputIntent (FetchClient.ui s))
                     (FetchClient.fieldTone (FetchClient.ui s))).
Proof.
  intros H. apply blank_false in H.
  destruct s as [[intent tone out view coh status] fetching posts log].
  revert H. fc_compute. intros ->.
  rt_split; intro K; inversion K; reflexivity.
Qed.

(** X8: on either client a submit whose intent is not blank is always
    handled, and the response it displays is one of the six strings of the
    table, never an index out of range; being non-empty, it replaces the
    "Awaiting" text for good.  On the realtime client the score displayed
    with it lies between 50 and 100. *)
Theorem X8_response_is_from_the_table
    (s : RealtimeClient.Sys) (env : Config.Env) (c : FetchClient.Sys)
    (now : Z) :
  (~ whitespace_only (RealtimeClient.inputIntent (RealtimeClient.ui s)) ->
   exists s',
     RealtimeClient.step s (RealtimeClient.Click now) = Next s' /\
     In (RealtimeClient.outputResponse (RealtimeClient.ui s'))
        Harmonic.responses /\
     Js.truthy (RealtimeClient.outputResponse (RealtimeClient.ui s')) = true /\
     50 <= RealtimeClient.coherenceScore (RealtimeClient.ui s') <= 100)
  /\
  (~ whitespace_only (FetchClient.inputIntent (FetchClient.ui c)) ->
   exists c',
     FetchClient.step env c (FetchClient.Click now) = Next c' /\
     In (FetchClient.outputResponse (FetchClient.ui c')) Harmonic.responses /\
     Js.truthy (FetchClient.outputResponse (FetchClient.ui c')) = true).
Proof.
  pose proof responses_truthy as T. rewrite Forall_forall in T.
  split; intro H.
  - destruct (rt_click_handled s now) as (s' & E). exists s'.
    destruct (rt_click_output s s' now H E) as [A B].
    split; [exact E|]. rewrite A, B.
    split; [apply result_of_in_table|].
    split; [apply T, result_of_in_table | apply score_of_range, hash_nonneg].
  - destruct (fc_click_handled env c now) as (c' & E). exists c'.
    pose proof (fc_click_output env c c' now H E) as A.
    split; [exact E|]. rewrite A.
    split; [apply result_of_in_table | apply T, result_of_in_table].
Qed.

Lemma X8_response_is_from_the_table_example :
  (exists s',
     RealtimeClient.step rt_typed (RealtimeClient.Click 2) = Next s' /\
     In (RealtimeClient.outputResponse (RealtimeClient.ui s'))
        Harmonic.responses /\
     Js.truthy (RealtimeClient.outputResponse (RealtimeClient.ui s')) = true /\
     50 <= RealtimeClient.coherenceScore (RealtimeClient.ui s') <= 100)
  /\
  (exists c',
     FetchClient.step env_configured fc_typed (FetchClient.Click 2) = Next c' /\
     In (FetchClient.outputResponse (FetchClient.ui c')) Harmonic.responses /\
     Js.truthy (FetchClient.outputResponse (FetchClient.ui c')) = true).
Proof.
  destruct (X8_response_is_from_the_table rt_typed env_configured fc_typed 2)
    as [A B].
  split; [apply A | apply B]; apply blank_false; vm_compute; reflexivity.
Defined.

(** ** The configuration *)

Lemma eqb_eq (a b : Js.str) : Js.eqb a b = true <-> a = b.
Proof.
  revert b. induction a as [|c a IH]; intros [|d b]; simpl;
    try (split; [discriminate|congruence]); [tauto|].
  rewrite andb_true_iff, N.eqb_eq, IH. split.
  - intros [-> ->]. reflexivity.
  - intro H. inversion H. auto.
Qed.

Lemma or_else_placeholder (v : option Js.str) (c : N) (p : Js.str) :
  Js.eqb (Js.or_else v (c :: p)) (c :: p) = true <-> falls_back v (c :: p).
Proof.
  rewrite eqb_eq. unfold falls_back.
  destruct v as [[|d s]|]; simpl.
  - split; auto.
  - split.
    + intros ->. auto.
    + intros [H|[H|H]]; congruence.
  - split; auto.
Qed.

(** X9: the clients take themselves for not configured exactly when the URL
    or the key is absent from the environment, is the empty string, or is
    the placeholder; a real URL with such a key, or such a URL with a real
    key, is enough. *)
Theorem X9_not_configured_exactly (env : Config.Env) :
  Config.not_configured env = true <->
  falls_back (Config.REACT_APP_SUPABASE_URL env) Config.placeholder_url \/
  falls_back (Config.REACT_APP_SUPABASE_ANON_KEY env) Config.placeholder_key.
Proof.
  unfold Config.not_configured, Config.SUPABASE_URL, Config.SUPABASE_ANON_KEY.
  rewrite orb_true_iff.
  change Config.placeholder_url
    with (hd 0%N Config.placeholder_url :: tl Config.placeholder_url).
  change Config.placeholder_key
    with (hd 0%N Config.placeholder_key :: tl Config.placeholder_key).
  rewrite !or_else_placeholder. reflexivity.
Qed.

(** ** The fetch client *)

Lemma fc_step_io (env : Config.Env) (s s' : FetchClient.Sys)
    (ev : FetchClient.Event) :
  FetchClient.step env s ev = Next s' ->
  FetchClient.fetching s' =
    match ev with
    | FetchClient.FetchSettled _ => false
    | _ => FetchClient.fetching s
    end /\
  FetchClient.calls s' =
    match ev with
    | FetchClient.Click now =>
        if Harmonic.blank (FetchClient.inputIntent (FetchClient.ui s))
        then FetchClient.calls s
        else if ApiStatus_eqb (FetchClient.apiStatus (FetchClient.ui s))
                              connected
             then FetchClient.CallPost (FetchClient.MEMORY_ENDPOINT env)
                    (FetchClient.memoryEntry_of (FetchClient.ui s) now)
                  :: FetchClient.calls s
             else FetchClient.calls s
    | _ => FetchClient.calls s
    end.
Proof.
  fc_cases s ev; rt_split; intro H; inversion H; subst; split; reflexivity.
Qed.

Lemma fc_fetch_settled_handled (env : Config.Env) (s : FetchClient.Sys)
    (r : FetchClient.FetchResult) :
  FetchClient.fetching s = true ->
  exists s', FetchClient.step env s (FetchClient.FetchSettled r) = Next s'.
Proof.
  destruct s as [[intent tone out view coh status] fetching posts log].
  fc_compute. intros ->. rt_split; eexists; reflexivity.
Qed.

Lemma fc_mount_configured (env : Config.Env) :
  Config.not_configured env = false ->
  exec (FetchClient.useEffect_mount env) FetchClient.init =
  Next {| FetchClient.ui := FetchClient.ui0; FetchClient.fetching := true;
          FetchClient.posts := [];
          FetchClient.calls :=
            [FetchClient.CallGet (FetchClient.MEMORY_ENDPOINT env)] |}.
Proof.
  intro H. unfold FetchClient.useEffect_mount. rewrite H. reflexivity.
Qed.

Lemma fc_first_fetch (env : Config.Env) (s : FetchClient.Sys)
    (r : FetchClient.FetchResult) :
  FetchClient.fetching s = true ->
  exists s',
    FetchClient.step env s (FetchClient.FetchSettled r) = Next s' /\
    FetchClient.fetching s' = false /\
    FetchClient.calls s' = FetchClient.calls s /\
    FetchClient.apiStatus (FetchClient.ui s') =
      match r with
      | FetchClient.Responded true (FetchClient.Parsed _) => connected
      | _ => error
      end /\
    FetchClient.memoryDisplay (FetchClient.ui s') =
      match r with
      | FetchClient.Responded true (FetchClient.Parsed (FetchClient.JArray l)) =>
          firstn 5 (rev l)
      | _ => FetchClient.memoryDisplay (FetchClient.ui s)
      end.
Proof.
  intro F. destruct (fc_fetch_settled_handled env s r F) as (s' & E).
  exists s'. split; [exact E|].
  destruct (fc_step_io _ _ _ _ E) as [A B].
  rewrite (fc_step_status _ _ _ _ E), (fc_step_view _ _ _ _ E).
  split; [exact A|]. split; [exact B|]. split.
  - destruct r as [e|[|] [e|d]]; reflexivity.
  - destruct r as [e|[|] [e|[l|]]]; reflexivity.
Qed.

(** X10: how the first fetch ends.  Only a response that is [ok] and whose
    body parses leaves the client [connected]; a response that is not [ok], a
    network failure, and also an [ok] response whose body does not parse,
    leave it in [error].  The view is replaced, by the first five of the
    reversed array, only when the body is an array; in every other case,
    parsed non-array included, it is left as it was.  No call follows. *)
Theorem X10_first_fetch_outcomes (env : Config.Env) (s : FetchClient.Sys)
    (r : FetchClient.FetchResult) :
  FetchClient.fetching s = true ->
  exists s',
    FetchClient.step env s (FetchClient.FetchSettled r) = Next s' /\
    FetchClient.fetching s' = false /\
    FetchClient.calls s' = FetchClient.calls s /\
    FetchClient.apiStatus (FetchClient.ui s') =
      match r with
      | FetchClient.Responded true (FetchClient.Parsed _) => connected
      | _ => error
      end /\
    FetchClient.memoryDisplay (FetchClient.ui s') =
      match r with
      | FetchClient.Responded true (FetchClient.Parsed (FetchClient.JArray l)) =>
          firstn 5 (rev l)
      | _ => FetchClient.memoryDisplay (FetchClient.ui s)
      end.
Proof. apply fc_first_fetch. Qed.

Lemma X10_first_fetch_outcomes_example :
  let s0 := ending (FetchClient.session env_configured []) FetchClient.init in
  let r := FetchClient.Responded true (FetchClient.Malformed unreachable) in
  FetchClient.fetching s0 = true /\
  exists s',
    FetchClient.step env_configured s0 (FetchClient.FetchSettled r) = Next s' /\
    FetchClient.fetching s' = false /\
    FetchClient.calls s' = FetchClient.calls s0 /\
    FetchClient.apiStatus (FetchClient.ui s') = error /\
    FetchClient.memoryDisplay (FetchClient.ui s') =
      FetchClient.memoryDisplay (FetchClient.ui s0).
Proof.
  intros s0 r. split; [reflexivity|].
  apply (X10_first_fetch_outcomes env_configured s0 r). reflexivity.
Defined.

Lemma slice_last_slice_last {A} (n m : nat) (l : list A) :
  (n <= m)%nat -> Js.slice_last n (Js.slice_last m l) = Js.slice_last n l.
Proof.
  intro H. unfold Js.slice_last. rewrite length_skipn, skipn_skipn.
  f_equal. lia.
Qed.

(** X11: the fetch client started against this server.  When the server has
    served a run of appends from its empty store and the client's first
    fetch is answered with the server's GET listing, the client is
    [connected] and displays the last five appended entries, latest first
    (all of them when there are fewer). *)
Theorem X11_first_fetch_from_the_server (env : Config.Env)
    (ps : list Append) :
  Config.not_configured env = false ->
  exists listing s,
    last (snd (Server.serve Server.harmonicMemory0
                 (map append_request ps ++ [Server.GET])))
         (Server.Entries 0 [])
      = Server.Entries 200 listing /\
    FetchClient.session env
      [FetchClient.FetchSettled
         (FetchClient.Responded true
            (FetchClient.Parsed (FetchClient.JArray listing)))] = Next s /\
    FetchClient.apiStatus (FetchClient.ui s) = connected /\
    FetchClient.memoryDisplay (FetchClient.ui s)
      = rev (Js.slice_last 5 (map appended ps)).
Proof.
  intro H.
  exists (Js.slice_last 100 (map appended ps)).
  unfold FetchClient.session. rewrite (fc_mount_configured env H).
  match goal with
  | |- exists s, _ /\ run _ ?s0 [FetchClient.FetchSettled ?r] = _ /\ _ =>
      destruct (fc_first_fetch env s0 r eq_refl)
        as (s & E & _ & _ & T & V)
  end.
  exists s. split; [|split; [|split]].
  - rewrite serve_app, serve_appends.
    cbn [fst snd Server.serve Server.handle Server.get].
    rewrite last_last.
    destruct ps as [|p ps]; reflexivity.
  - cbn [run]. rewrite E. reflexivity.
  - exact T.
  - rewrite V, firstn_rev. fold (Js.slice_last 5 (Js.slice_last 100 (map appended ps))).
    rewrite slice_last_slice_last by lia. reflexivity.
Qed.

Lemma X11_first_fetch_from_the_server_example :
  exists listing s,
    last (snd (Server.serve Server.harmonicMemory0
                 (map append_request hundred_and_one ++ [Server.GET])))
         (Server.Entries 0 [])
      = Server.Entries 200 listing /\
    FetchClient.session env_configured
      [FetchClient.FetchSettled
         (FetchClient.Responded true
            (FetchClient.Parsed (FetchClient.JArray listing)))] = Next s /\
    FetchClient.apiStatus (FetchClient.ui s) = connected /\
    FetchClient.memoryDisplay (FetchClient.ui s)
      = rev (Js.slice_last 5 (map appended hundred_and_one)).
Proof.
  apply (X11_first_fetch_from_the_server env_configured hundred_and_one).
  vm_compute. reflexivity.
Defined.

Lemma X9_not_configured_exactly_example :
  Config.not_configured env_empty_key = true /\
  Config.not_configured env_configured = false.
Proof.
  split.
  - apply (proj2 (X9_not_configured_exactly env_empty_key)).
    right. right. left. reflexivity.
  - vm_compute. reflexivity.
Defined.

Lemma fc_step_settled (env : Config.Env) (s s' : FetchClient.Sys)
    (ev : FetchClient.Event) :
  FetchClient.step env s ev = Next s' ->
  FetchClient.fetching s = false ->
  FetchClient.fetching s' = false /\
  FetchClient.apiStatus (FetchClient.ui s') =
  FetchClient.apiStatus (FetchClient.ui s).
Proof.
  intros E F. destruct (fc_step_io _ _ _ _ E) as [A _].
  rewrite (fc_step_status _ _ _ _ E), A.
  destruct ev; auto.
  unfold FetchClient.step in E. rewrite F in E. discriminate.
Qed.

(** X12: the fetch client hears from the store about its status once.  From
    the moment its first fetch has settled, nothing that happens (typing,
    submits, POSTs that succeed or fail) changes the status, and no second
    fetch is ever under way: a client that ended in [error] stays there, and
    one that ended [connected] stays so when its POSTs fail. *)
Theorem X12_status_settles_once (env : Config.Env)
    (evs : list FetchClient.Event) (s s' : FetchClient.Sys) :
  FetchClient.fetching s = false ->
  run (FetchClient.step env) s evs = Next s' ->
  FetchClient.fetching s' = false /\
  FetchClient.apiStatus (FetchClient.ui s') =
  FetchClient.apiStatus (FetchClient.ui s).
Proof.
  intros F Hrun.
  apply (run_invariant (FetchClient.step env)
           (fun t => FetchClient.fetching t = false /\
                     FetchClient.apiStatus (FetchClient.ui t) =
                     FetchClient.apiStatus (FetchClient.ui s))) with (s := s)
           (evs := evs); auto.
  intros t t' ev E [Ft St].
  destruct (fc_step_settled env t t' ev E Ft) as [A B].
  split; [exact A|]. rewrite B. exact St.
Qed.

Lemma X12_status_settles_once_example :
  let evs := [FetchClient.Click 3; FetchClient.PostSettled 0 false;
              FetchClient.PostSettled 0 false; FetchClient.Click 4] in
  let s' := ending (run (FetchClient.step env_configured) fc_saving evs)
                   FetchClient.init in
  FetchClient.fetching s' = false /\
  FetchClient.apiStatus (FetchClient.ui s') =
  FetchClient.apiStatus (FetchClient.ui fc_saving).
Proof.
  intros evs s'.
  apply (X12_status_settles_once env_configured evs fc_saving s');
    vm_compute; reflexivity.
Defined.

Lemma fc_step_log (env : Config.Env) (s s' : FetchClient.Sys)
    (ev : FetchClient.Event) :
  FetchClient.step env s ev = Next s' ->
  (exists bodies,
     rev (FetchClient.calls s) =
     FetchClient.CallGet (FetchClient.MEMORY_ENDPOINT env)
     :: map (FetchClient.CallPost (FetchClient.MEMORY_ENDPOINT env)) bodies) ->
  exists bodies,
    rev (FetchClient.calls s') =
    FetchClient.CallGet (FetchClient.MEMORY_ENDPOINT env)
    :: map (FetchClient.CallPost (FetchClient.MEMORY_ENDPOINT env)) bodies.
Proof.
  intros E (bodies & H). destruct (fc_step_io _ _ _ _ E) as [_ C].
  rewrite C. destruct ev; try (exists bodies; exact H).
  destruct (Harmonic.blank _); [exists bodies; exact H|].
  destruct (ApiStatus_eqb _ _); [|exists bodies; exact H].
  exists (bodies ++ [FetchClient.memoryEntry_of (FetchClient.ui s) now]).
  cbn [rev]. rewrite H, map_app. reflexivity.
Qed.

(** X13: what a configured fetch client sends in a session is one GET,
    first, and after it nothing but POSTs, every one of them to the same
    endpoint, the URL followed by [/rest/v1/harmonic_memory]: it never
    fetches a second time and never sends anything else. *)
Theorem X13_one_get_then_posts (env : Config.Env)
    (evs : list FetchClient.Event) (s : FetchClient.Sys) :
  Config.not_configured env = false ->
  FetchClient.session env evs = Next s ->
  exists bodies,
    rev (FetchClient.calls s) =
    FetchClient.CallGet (Config.SUPABASE_URL env
                         ++ Js.lit "/rest/v1/harmonic_memory")
    :: map (FetchClient.CallPost (Config.SUPABASE_URL env
                                  ++ Js.lit "/rest/v1/harmonic_memory"))
           bodies.
Proof.
  intros H. unfold FetchClient.session.
  rewrite (fc_mount_configured env H). intro Hrun.
  apply (run_invariant (FetchClient.step env)
           (fun t => exists bodies,
              rev (FetchClient.calls t) =
              FetchClient.CallGet (FetchClient.MEMORY_ENDPOINT env)
              :: map (FetchClient.CallPost (FetchClient.MEMORY_ENDPOINT env))
                     bodies)
           (fc_step_log env) evs _ s Hrun).
  exists []. reflexivity.
Qed.

Lemma X13_one_get_then_posts_example :
  let evs := [FetchClient.FetchSettled
                (FetchClient.Responded true
                   (FetchClient.Parsed (FetchClient.JArray [])));
              FetchClient.TypeIntent (Js.lit "Hello");
              FetchClient.Click 2; FetchClient.Click 3;
              FetchClient.PostSettled 1 true] in
  let s := ending (FetchClient.session env_configured evs) FetchClient.init in
  exists bodies,
    rev (FetchClient.calls s) =
    FetchClient.CallGet (Config.SUPABASE_URL env_configured
                         ++ Js.lit "/rest/v1/harmonic_memory")
    :: map (FetchClient.CallPost (Config.SUPABASE_URL env_configured
                                  ++ Js.lit "/rest/v1/harmonic_memory"))
           bodies.
Proof.
  intros evs s.
  apply (X13_one_get_then_posts env_configured evs s); vm_compute; reflexivity.
Defined.

(** ** The realtime client *)

Lemma rt_step_ui_rest (s s' : RealtimeClient.Sys) (ev : RealtimeClient.Event) :
  RealtimeClient.step s ev = Next s' ->
  RealtimeClient.activeUsers (RealtimeClient.ui s') =
    match ev with
    | RealtimeClient.PresenceSync userCount => Z.of_nat userCount
    | RealtimeClient.PresenceJoin =>
        RealtimeClient.activeUsers (RealtimeClient.ui s) + 1
    | RealtimeClient.PresenceLeave =>
        Z.max 0 (RealtimeClient.activeUsers (RealtimeClient.ui s) - 1)
    | _ => RealtimeClient.activeUsers (RealtimeClient.ui s)
    end /\
  RealtimeClient.scoreTimers s' =
    match ev with
    | RealtimeClient.FeedInsert newEntry =>
        RealtimeClient.scoreTimers s ++ [score newEntry]
    | RealtimeClient.ScoreTimer i => remove_nth i (RealtimeClient.scoreTimers s)
    | _ => RealtimeClient.scoreTimers s
    end /\
  RealtimeClient.coherenceScore (RealtimeClient.ui s') =
    match ev with
    | RealtimeClient.Click now =>
        if Harmonic.blank (RealtimeClient.inputIntent (RealtimeClient.ui s))
        then RealtimeClient.coherenceScore (RealtimeClient.ui s)
        else Harmonic.score_of
               (Harmonic.hash (RealtimeClient.inputIntent (RealtimeClient.ui s))
                              (RealtimeClient.fieldTone (RealtimeClient.ui s)))
    | RealtimeClient.ScoreTimer i =>
        nth i (RealtimeClient.scoreTimers s)
            (RealtimeClient.coherenceScore (RealtimeClient.ui s))
    | _ => RealtimeClient.coherenceScore (RealtimeClient.ui s)
    end.
Proof.
  rt_cases s ev; rt_split; intro H; inversion H; subst;
    (split; [reflexivity|]); (split; [reflexivity|]);
    try reflexivity.
  all: match goal with
       | E : nth_error ?l ?i = Some ?v |- _ = nth ?i ?l ?d =>
           symmetry; apply nth_error_nth; exact E
       end.
Qed.

Lemma rt_mount_users (env : Config.Env) (now : Z) (s0 : RealtimeClient.Sys) :
  exec (RealtimeClient.useEffect_mount env now) RealtimeClient.init = Next s0 ->
  RealtimeClient.activeUsers (RealtimeClient.ui s0) = 0.
Proof.
  unfold RealtimeClient.useEffect_mount, RealtimeClient.init,
    RealtimeClient.ui0.
  destruct (Config.not_configured env); rt_compute;
    intro K; inversion K; reflexivity.
Qed.

(** X14: the realtime client changes its status only when its select query
    is answered.  Typing, submits, saves that succeed or fail, insert and
    delete notifications, a channel error, time-out or closure, timers and
    presence events all leave it as it was. *)
Theorem X14_status_follows_the_select_only (s s' : RealtimeClient.Sys)
    (ev : RealtimeClient.Event) :
  is_select_answer ev = false ->
  RealtimeClient.step s ev = Next s' ->
  RealtimeClient.apiStatus (RealtimeClient.ui s') =
  RealtimeClient.apiStatus (RealtimeClient.ui s).
Proof.
  intros H E. rewrite (rt_step_status _ _ _ E).
  destruct ev; try reflexivity. discriminate.
Qed.

Lemma X14_status_follows_the_select_only_example :
  let ev := RealtimeClient.FeedStatus 5 RealtimeClient.CHANNEL_ERROR in
  let s' := ending (RealtimeClient.step rt_typed ev) RealtimeClient.init in
  RealtimeClient.apiStatus (RealtimeClient.ui s') =
  RealtimeClient.apiStatus (RealtimeClient.ui rt_typed).
Proof.
  intros ev s'.
  apply (X14_status_follows_the_select_only rt_typed s' ev);
    vm_compute; reflexivity.
Defined.

(** X15: the number of users displayed is never negative, in any session:
    a leave at zero leaves it at zero. *)
Theorem X15_active_users_never_negative (env : Config.Env) (now : Z)
    (evs : list RealtimeClient.Event) (s : RealtimeClient.Sys) :
  RealtimeClient.session env now evs = Next s ->
  0 <= RealtimeClient.activeUsers (RealtimeClient.ui s).
Proof.
  unfold RealtimeClient.session.
  destruct (exec (RealtimeClient.useEffect_mount env now) RealtimeClient.init)
    as [s0| |] eqn:E; try discriminate.
  intro Hrun.
  apply (run_invariant RealtimeClient.step
           (fun t => 0 <= RealtimeClient.activeUsers (RealtimeClient.ui t)))
    with (s := s0) (evs := evs); auto.
  - intros t t' ev Et Ht. destruct (rt_step_ui_rest _ _ _ Et) as [A _].
    rewrite A. destruct ev; lia.
  - rewrite (rt_mount_users env now s0 E). lia.
Qed.

Lemma X15_active_users_never_negative_example :
  let evs := [RealtimeClient.PresenceLeave; RealtimeClient.PresenceSync 2;
              RealtimeClient.PresenceLeave; RealtimeClient.PresenceLeave;
              RealtimeClient.PresenceLeave] in
  let s := ending (RealtimeClient.session env_configured 0 evs)
                  RealtimeClient.init in
  0 <= RealtimeClient.activeUsers (RealtimeClient.ui s).
Proof.
  intros evs s.
  apply (X15_active_users_never_negative env_configured 0 evs s).
  vm_compute. reflexivity.
Defined.

Lemma filter_keeps_all {A} (keep : A -> bool) (l : list A) :
  Forall (fun a => keep a = true) l -> filter keep l = l.
Proof.
  induction 1 as [|a l Ha Hl IH]; simpl; [reflexivity|].
  rewrite Ha, IH. reflexivity.
Qed.

(** X16: the timer that is to take a message away takes away exactly the
    messages whose id is the reading of the clock when it fires.  So a
    message posted at one instant, here the notice that the subscription is
    active, is still displayed after a timer has fired at any later instant,
    together with every earlier message. *)
Theorem X16_messages_outlive_their_timer (s : RealtimeClient.Sys)
    (posted fired : Z) :
  RealtimeClient.feed s = true ->
  posted < fired ->
  (forall m, In m (RealtimeClient.errorMessages (RealtimeClient.ui s)) ->
             RealtimeClient.toast_id m < fired) ->
  exists s',
    run RealtimeClient.step s
      [RealtimeClient.FeedStatus posted RealtimeClient.SUBSCRIBED;
       RealtimeClient.ToastTimer fired] = Next s' /\
    RealtimeClient.errorMessages (RealtimeClient.ui s') =
      RealtimeClient.errorMessages (RealtimeClient.ui s)
      ++ [{| RealtimeClient.toast_id := posted;
             RealtimeClient.toast_message :=
               (RealtimeClient.sign_check
                +++ Js.lit " Real-time subscription active")%js;
             RealtimeClient.toast_timestamp := posted |}].
Proof.
  destruct s as [[intent tone out view coh status users dbg toasts]
                   sel ins fd pr timers toastn log].
  cbn [run RealtimeClient.feed RealtimeClient.ui RealtimeClient.errorMessages].
  intros -> Hlt Hold.
  rt_compute. eexists. split; [reflexivity|].
  cbn [RealtimeClient.errorMessages RealtimeClient.ui].
  apply filter_keeps_all, Forall_forall. intros m Hm. apply in_app_or in Hm.
  apply negb_true_iff, Z.eqb_neq.
  destruct Hm as [Hm|[<-|[]]].
  - specialize (Hold m Hm). lia.
  - cbn [RealtimeClient.toast_id]. lia.
Qed.

Lemma X16_messages_outlive_their_timer_example :
  RealtimeClient.feed rt_typed = true /\
  exists s',
    run RealtimeClient.step rt_typed
      [RealtimeClient.FeedStatus 5 RealtimeClient.SUBSCRIBED;
       RealtimeClient.ToastTimer 10005] = Next s' /\
    RealtimeClient.errorMessages (RealtimeClient.ui s') =
      RealtimeClient.errorMessages (RealtimeClient.ui rt_typed)
      ++ [{| RealtimeClient.toast_id := 5;
             RealtimeClient.toast_message :=
               (RealtimeClient.sign_check
                +++ Js.lit " Real-time subscription active")%js;
             RealtimeClient.toast_timestamp := 5 |}].
Proof.
  split; [reflexivity|].
  apply (X16_messages_outlive_their_timer rt_typed 5 10005).
  - reflexivity.
  - lia.
  - vm_compute. intros m [].
Defined.

Lemma rt_feed_delete_handled (s : RealtimeClient.Sys) :
  RealtimeClient.feed s = true ->
  exists s', RealtimeClient.step s RealtimeClient.FeedDelete = Next s'.
Proof.
  destruct s as [[intent tone out view coh status users dbg toasts]
                   sel ins fd pr timers toastn log].
  rt_compute. intros ->. eexists; reflexivity.
Qed.

Lemma rt_select_settled_handled (s : RealtimeClient.Sys) (now : Z)
    (r : RealtimeClient.QueryResult (list Entry)) :
  RealtimeClient.selects s <> O ->
  exists s', RealtimeClient.step s (RealtimeClient.SelectSettled now r) = Next s'.
Proof.
  destruct s as [[intent tone out view coh status users dbg toasts]
                   sel ins fd pr timers toastn log].
  rt_compute. intro H. destruct sel as [|sel]; [congruence|].
  rt_split; eexists; reflexivity.
Qed.

Lemma rt_score_timer_handled (s : RealtimeClient.Sys) (i : nat) (v : Z) :
  nth_error (RealtimeClient.scoreTimers s) i = Some v ->
  exists s', RealtimeClient.step s (RealtimeClient.ScoreTimer i) = Next s'.
Proof.
  destruct s as [[intent tone out view coh status users dbg toasts]
                   sel ins fd pr timers toastn log].
  rt_compute. intros ->. eexists; reflexivity.
Qed.

(** X17: a delete notification does not clear the view.  It sends one select
    query and leaves the view as it is until the answer comes; the answer
    replaces the view by the five latest rows of the table when it is good
    (so by nothing when the table is empty), and leaves the old entries on
    display, with status [error], when it is an error or a rejection. *)
Theorem X17_delete_refetches (s : RealtimeClient.Sys) (now : Z)
    (r : RealtimeClient.QueryResult (list Entry)) :
  RealtimeClient.feed s = true ->
  exists s1 s2,
    RealtimeClient.step s RealtimeClient.FeedDelete = Next s1 /\
    RealtimeClient.memoryDisplay (RealtimeClient.ui s1) =
      RealtimeClient.memoryDisplay (RealtimeClient.ui s) /\
    RealtimeClient.calls s1 = RealtimeClient.CallSelect :: RealtimeClient.calls s /\
    RealtimeClient.step s1 (RealtimeClient.SelectSettled now r) = Next s2 /\
    RealtimeClient.memoryDisplay (RealtimeClient.ui s2) =
      match r with
      | RealtimeClient.Resolved (Some rows) None => Store.select_recent 5 rows
      | _ => RealtimeClient.memoryDisplay (RealtimeClient.ui s)
      end /\
    RealtimeClient.apiStatus (RealtimeClient.ui s2) =
      match r with
      | RealtimeClient.Resolved (Some _) None => connected
      | RealtimeClient.Resolved None None =>
          RealtimeClient.apiStatus (RealtimeClient.ui s)
      | _ => error
      end.
Proof.
  intro F. destruct (rt_feed_delete_handled s F) as (s1 & E1).
  pose proof (rt_step_view _ _ _ E1) as V1.
  pose proof (rt_step_status _ _ _ E1) as T1.
  pose proof (rt_step_selects _ _ _ E1) as S1.
  destruct (rt_step_io _ _ _ E1) as (_ & _ & _ & C1).
  cbn [RealtimeClient.mutation] in V1.
  assert (N : RealtimeClient.selects s1 <> O) by (rewrite S1; discriminate).
  destruct (rt_select_settled_handled s1 now r N) as (s2 & E2).
  exists s1, s2.
  rewrite (rt_step_view _ _ _ E2), (rt_step_status _ _ _ E2), V1, T1.
  split; [exact E1|]. split; [reflexivity|]. split; [exact C1|].
  split; [exact E2|]. split.
  - destruct r as [[rows|] [err|]|e]; reflexivity.
  - destruct r as [[rows|] [err|]|e]; reflexivity.
Qed.

Lemma X17_delete_refetches_example :
  let s := ending (RealtimeClient.session env_configured 0 rt_busy_events)
                  RealtimeClient.init in
  let r := RealtimeClient.Resolved None (Some unreachable) in
  RealtimeClient.feed s = true /\
  exists s1 s2,
    RealtimeClient.step s RealtimeClient.FeedDelete = Next s1 /\
    RealtimeClient.memoryDisplay (RealtimeClient.ui s1) =
      RealtimeClient.memoryDisplay (RealtimeClient.ui s) /\
    RealtimeClient.calls s1 = RealtimeClient.CallSelect :: RealtimeClient.calls s /\
    RealtimeClient.step s1 (RealtimeClient.SelectSettled 9 r) = Next s2 /\
    RealtimeClient.memoryDisplay (RealtimeClient.ui s2) =
      RealtimeClient.memoryDisplay (RealtimeClient.ui s) /\
    RealtimeClient.apiStatus (RealtimeClient.ui s2) = error.
Proof.
  intros s r. split; [vm_compute; reflexivity|].
  apply (X17_delete_refetches s 9 r). vm_compute. reflexivity.
Defined.

Lemma nth_error_snoc {A} (l : list A) (v : A) :
  nth_error (l ++ [v]) (List.length l) = Some v.
Proof.
  rewrite nth_error_app2 by lia. rewrite Nat.sub_diag. reflexivity.
Qed.

Lemma remove_nth_snoc {A} (l : list A) (v : A) :
  remove_nth (List.length l) (l ++ [v]) = l.
Proof.
  induction l as [|a l IH]; simpl; [reflexivity|]. now rewrite IH.
Qed.

(** X18: an insert notification does not change the score displayed at
    once: it sets a timer, and when that timer fires the score displayed
    becomes the score field of the notified entry, as received, whatever
    number it is; the submit path's bounds do not apply to it. *)
Theorem X18_notified_score_is_shown_later (s : RealtimeClient.Sys)
    (newEntry : Entry) :
  RealtimeClient.feed s = true ->
  exists s1 s2,
    RealtimeClient.step s (RealtimeClient.FeedInsert newEntry) = Next s1 /\
    RealtimeClient.coherenceScore (RealtimeClient.ui s1) =
      RealtimeClient.coherenceScore (RealtimeClient.ui s) /\
    RealtimeClient.step s1
      (RealtimeClient.ScoreTimer (List.length (RealtimeClient.scoreTimers s)))
      = Next s2 /\
    RealtimeClient.coherenceScore (RealtimeClient.ui s2) = score newEntry /\
    RealtimeClient.scoreTimers s2 = RealtimeClient.scoreTimers s.
Proof.
  intro F. destruct (rt_feed_insert_handled s newEntry F) as (s1 & E1).
  destruct (rt_step_ui_rest _ _ _ E1) as (_ & T1 & C1).
  assert (N : nth_error (RealtimeClient.scoreTimers s1)
                (List.length (RealtimeClient.scoreTimers s))
              = Some (score newEntry))
    by (rewrite T1; apply nth_error_snoc).
  destruct (rt_score_timer_handled s1 _ _ N) as (s2 & E2).
  destruct (rt_step_ui_rest _ _ _ E2) as (_ & T2 & C2).
  exists s1, s2. rewrite C2, T2, T1, C1.
  split; [exact E1|]. split; [reflexivity|]. split; [exact E2|]. split.
  - rewrite <- T1. apply nth_error_nth. exact N.
  - apply remove_nth_snoc.
Qed.

Lemma X18_notified_score_is_shown_later_example :
  let e := {| x := Js.lit "Hello"; y := Js.lit "Trust"; z := [];
              score := 250; timestamp := 4; id := Some 8; user_id := None |} in
  RealtimeClient.feed rt_typed = true /\
  exists s1 s2,
    RealtimeClient.step rt_typed (RealtimeClient.FeedInsert e) = Next s1 /\
    RealtimeClient.coherenceScore (RealtimeClient.ui s1) =
      RealtimeClient.coherenceScore (RealtimeClient.ui rt_typed) /\
    RealtimeClient.step s1
      (RealtimeClient.ScoreTimer (List.length (RealtimeClient.scoreTimers rt_typed)))
      = Next s2 /\
    RealtimeClient.coherenceScore (RealtimeClient.ui s2) = 250 /\
    RealtimeClient.scoreTimers s2 = RealtimeClient.scoreTimers rt_typed.
Proof.
  intro e. split; [reflexivity|].
  apply (X18_notified_score_is_shown_later rt_typed e). reflexivity.
Defined.

(** X19: what a save tells the user.  A save the store answers with an
    error object posts the message "Save failed: ..." twice, once where the
    error is seen and once where it is caught; a save whose promise is
    rejected posts it once; a save that succeeds posts one message of
    success.  Each message posted sets one removal timer. *)
Theorem X19_save_messages (s : RealtimeClient.Sys) (now : Z) (i : nat)
    (entry : Entry) (r : RealtimeClient.QueryResult unit) :
  nth_error (RealtimeClient.inserts s) i = Some entry ->
  exists s',
    RealtimeClient.step s (RealtimeClient.InsertSettled now i r) = Next s' /\
    map RealtimeClient.toast_message
        (RealtimeClient.errorMessages (RealtimeClient.ui s')) =
      map RealtimeClient.toast_message
          (RealtimeClient.errorMessages (RealtimeClient.ui s))
      ++ match r with
         | RealtimeClient.Rejected e =>
             [(RealtimeClient.sign_cross +++ Js.lit " Save failed: "
               +++ message e)%js]
         | RealtimeClient.Resolved _ (Some err) =>
             [(RealtimeClient.sign_cross +++ Js.lit " Save failed: "
               +++ message err)%js;
              (RealtimeClient.sign_cross +++ Js.lit " Save failed: "
               +++ message err)%js]
         | RealtimeClient.Resolved _ None =>
             [(RealtimeClient.sign_check
               +++ Js.lit " Successfully saved to database")%js]
         end /\
    RealtimeClient.toastTimers s' =
      (RealtimeClient.toastTimers s
       + match r with
         | RealtimeClient.Resolved _ (Some _) => 2
         | _ => 1
         end)%nat.
Proof.
  destruct s as [[intent tone out view coh status users dbg toasts]
                   sel ins fd pr timers toastn log].
  rt_compute. intros ->.
  destruct r as [d [err|]|e]; eexists; (split; [reflexivity|]);
    cbn [RealtimeClient.errorMessages RealtimeClient.ui
         RealtimeClient.toastTimers];
    rewrite ?map_app, <- ?app_assoc; split; try reflexivity; lia.
Qed.

Lemma X19_save_messages_example :
  exists s',
    RealtimeClient.step rt_saving
      (RealtimeClient.InsertSettled 3 0
         (RealtimeClient.Resolved None (Some unreachable))) = Next s' /\
    map RealtimeClient.toast_message
        (RealtimeClient.errorMessages (RealtimeClient.ui s')) =
      map RealtimeClient.toast_message
          (RealtimeClient.errorMessages (RealtimeClient.ui rt_saving))
      ++ [(RealtimeClient.sign_cross +++ Js.lit " Save failed: "
           +++ message unreachable)%js;
          (RealtimeClient.sign_cross +++ Js.lit " Save failed: "
           +++ message unreachable)%js] /\
    RealtimeClient.toastTimers s' =
      (RealtimeClient.toastTimers rt_saving + 2)%nat.
Proof.
  apply (X19_save_messages rt_saving 3 0
           (RealtimeClient.entry_of (RealtimeClient.ui rt_typed) 2)
           (RealtimeClient.Resolved None (Some unreachable))).
  vm_compute. reflexivity.
Defined.

Lemma fc_step_stays_local (env : Config.Env) (s s' : FetchClient.Sys)
    (ev : FetchClient.Event) :
  FetchClient.step env s ev = Next s' ->
  FetchClient.fetching s = false /\
  FetchClient.apiStatus (FetchClient.ui s) <> connected /\
  FetchClient.posts s = [] ->
  (FetchClient.fetching s' = false /\
   FetchClient.apiStatus (FetchClient.ui s') <> connected /\
   FetchClient.posts s' = []) /\
  FetchClient.calls s' = FetchClient.calls s /\
  FetchClient.apiStatus (FetchClient.ui s') =
  FetchClient.apiStatus (FetchClient.ui s).
Proof.
  intros E (F & N & P).
  destruct s as [[intent tone out view coh status] fetching posts log].
  cbn [FetchClient.fetching FetchClient.apiStatus FetchClient.ui
       FetchClient.posts] in F, N, P.
  subst fetching posts. revert E.
  destruct ev as [v|v|now|r|i resolved]; fc_compute;
    rewrite ?(not_connected _ N); rt_split; intro K; inversion K; subst;
    repeat split; auto.
  all: match goal with
       | K : nth_error [] ?i = Some _ |- _ => destruct i; discriminate K
       end.
Qed.

(** X20: a fetch client that is not [connected] once its first fetch has
    settled (the fetch failed, or there was no configuration) sends nothing
    for the rest of the session: every submit stays local, no POST is made
    and the status does not change. *)
Theorem X20_no_call_after_a_failed_fetch (env : Config.Env)
    (evs : list FetchClient.Event) (s s' : FetchClient.Sys) :
  FetchClient.fetching s = false ->
  FetchClient.apiStatus (FetchClient.ui s) <> connected ->
  FetchClient.posts s = [] ->
  run (FetchClient.step env) s evs = Next s' ->
  FetchClient.calls s' = FetchClient.calls s /\
  FetchClient.posts s' = [] /\
  FetchClient.apiStatus (FetchClient.ui s') =
  FetchClient.apiStatus (FetchClient.ui s).
Proof.
  intros F N P Hrun.
  assert (I : (FetchClient.fetching s' = false /\
               FetchClient.apiStatus (FetchClient.ui s') <> connected /\
               FetchClient.posts s' = []) /\
              FetchClient.calls s' = FetchClient.calls s /\
              FetchClient.apiStatus (FetchClient.ui s') =
              FetchClient.apiStatus (FetchClient.ui s)).
  { apply (run_invariant (FetchClient.step env)
             (fun t => (FetchClient.fetching t = false /\
                        FetchClient.apiStatus (FetchClient.ui t) <> connected /\
                        FetchClient.posts t = []) /\
                       FetchClient.calls t = FetchClient.calls s /\
                       FetchClient.apiStatus (FetchClient.ui t) =
                       FetchClient.apiStatus (FetchClient.ui s)))
      with (s := s) (evs := evs); auto.
    intros t t' ev E (J & C & T).
    destruct (fc_step_stays_local env t t' ev E J) as (J' & C' & T').
    split; [exact J'|]. split; congruence. }
  destruct I as ((_ & _ & P') & C & T). auto.
Qed.

Lemma X20_no_call_after_a_failed_fetch_example :
  let s := ending (FetchClient.session env_configured
                     [FetchClient.FetchSettled (FetchClient.Rejected unreachable)])
                  FetchClient.init in
  let evs := [FetchClient.TypeIntent (Js.lit "Hello");
              FetchClient.Click 2; FetchClient.Click 3] in
  let s' := ending (run (FetchClient.step env_configured) s evs)
                   FetchClient.init in
  FetchClient.calls s' = FetchClient.calls s /\
  FetchClient.posts s' = [] /\
  FetchClient.apiStatus (FetchClient.ui s') =
  FetchClient.apiStatus (FetchClient.ui s).
Proof.
  intros s evs s'.
  apply (X20_no_call_after_a_failed_fetch env_configured evs s s').
  - vm_compute. reflexivity.
  - vm_compute. discriminate.
  - vm_compute. reflexivity.
  - vm_compute. reflexivity.
Defined.
